(** * SubController: the subscription store (package storage) and its callers

    A shallow embedding of [PostgresRepository] (Create, Get, Update, Delete,
    GetTotalCost, List), of the parts of Go's [time] package it relies on
    (parsing and formatting with the layout "01-2006"), of the relational
    backend it talks to, and of the HTTP handlers that classify its errors. *)

From Stdlib Require Import ZArith NArith List String Ascii Bool Lia.
From Stdlib Require Import Permutation Sorted.
Import ListNotations.
Local Open Scope Z_scope.

(** ** Byte strings

    A Go string is a sequence of bytes; [string] is a list of [ascii] bytes. *)

Module bytes.

(** [s[n:]], for [n <= len(s)]. *)
Fixpoint drop (n : nat) (s : string) : string :=
  match n, s with
  | O, _ => s
  | S n', String _ s' => drop n' s'
  | S _, EmptyString => EmptyString
  end.

(** [s[:n]], for [n <= len(s)]. *)
Fixpoint take (n : nat) (s : string) : string :=
  match n, s with
  | O, _ => EmptyString
  | S n', String c s' => String c (take n' s')
  | S _, EmptyString => EmptyString
  end.

Definition len (s : string) : Z := Z.of_nat (String.length s).

Definition is_empty (s : string) : bool :=
  match s with EmptyString => true | _ => false end.

Fixpoint of_list (l : list ascii) : string :=
  match l with
  | [] => EmptyString
  | c :: l' => String c (of_list l')
  end.

End bytes.

(** ** Package time, restricted to the layout "01-2006"

    The layout splits into the chunks [stdZeroMonth] (no prefix) and
    [stdLongYear] (prefix "-").  A value parsed with it is
    [Date(year, month, 1, 0, 0, 0, 0, UTC)]: day and clock are constant, so a
    [Time] is represented by its year and month. *)

Module time.

Record Time : Type := Date { Year : Z; Month : Z }.

(** The three ways [Parse] fails on this layout ([*ParseError]'s message). *)
Inductive ParseError : Type :=
| errBad          (* the value does not match the layout element *)
| errMonthRange   (* ": month out of range" *)
| errExtraText.   (* ": extra text: ..." *)

Definition isDigitByte (c : ascii) : bool :=
  ((48 <=? N_of_ascii c) && (N_of_ascii c <=? 57))%N.

(** [isDigit(s, i)]: false when [len(s) <= i]. *)
Definition isDigit (s : string) (i : nat) : bool :=
  match String.get i s with
  | Some c => isDigitByte c
  | None => false
  end.

(** [int(c - '0')] *)
Definition digitVal (c : ascii) : Z := Z.of_N (N_of_ascii c) - 48.

Definition byteAt (s : string) (i : nat) : ascii :=
  match String.get i s with
  | Some c => c
  | None => zero
  end.

(** [getnum(s, fixed)]: parses [s[0:1]] or [s[0:2]]; [fixed] forces two
    digits. *)
Definition getnum (s : string) (fixed : bool) : option (Z * string) :=
  if negb (isDigit s 0) then None
  else if negb (isDigit s 1) then
    if fixed then None
    else Some (digitVal (byteAt s 0), bytes.drop 1 s)
  else Some (digitVal (byteAt s 0) * 10 + digitVal (byteAt s 1), bytes.drop 2 s).

(** [leadingInt(s)]: the longest prefix of digits, as a number, and the rest.
    (The overflow guard of the original is beyond reach of the four bytes it is
    called on here.) *)
Fixpoint leadingInt_from (x : Z) (s : string) : Z * string :=
  match s with
  | EmptyString => (x, s)
  | String c s' =>
      if isDigitByte c then leadingInt_from (x * 10 + digitVal c) s'
      else (x, s)
  end.

Definition leadingInt (s : string) : Z * string := leadingInt_from 0 s.

(** [atoi(s)]: an optional sign, then digits only. *)
Definition atoi (s : string) : option Z :=
  let '(neg, s1) :=
    match s with
    | String c s' =>
        if Ascii.eqb c "-" then (true, s')
        else if Ascii.eqb c "+" then (false, s')
        else (false, s)
    | EmptyString => (false, s)
    end in
  let '(q, rem) := leadingInt s1 in
  if negb (bytes.is_empty rem) then None
  else Some (if neg then - q else q).

(** [skip(value, prefix)] for a prefix without spaces. *)
Fixpoint skip (value prefix : string) : option string :=
  match prefix with
  | EmptyString => Some value
  | String p prefix' =>
      match value with
      | EmptyString => None
      | String v value' =>
          if Ascii.eqb v p then skip value' prefix' else None
      end
  end.

(** [time.Parse("01-2006", value)] *)
Definition Parse (value : string) : Time + ParseError :=
  (* chunk 1: prefix "", std = stdZeroMonth *)
  match skip value "" with
  | None => inr errBad
  | Some value =>
    match getnum value true with
    | None => inr errBad
    | Some (month, value) =>
      if (month <=? 0) || (12 <? month) then inr errMonthRange
      else
        (* chunk 2: prefix "-", std = stdLongYear *)
        match skip value "-" with
        | None => inr errBad
        | Some value =>
          if (bytes.len value <? 4) || negb (isDigit value 0) then inr errBad
          else
            let p := bytes.take 4 value in
            let value := bytes.drop 4 value in
            match atoi p with
            | None => inr errBad
            | Some year =>
              (* end of layout *)
              if negb (bytes.is_empty value) then inr errExtraText
              else inl (Date year month)
            end
        end
    end
  end.

Definition digitByte (d : Z) : ascii := ascii_of_N (Z.to_N (48 + d)).

(** Decimal digits of [u >= 0], most significant first; twenty digits cover a
    64-bit [uint]. *)
Fixpoint utoa_fuel (fuel : nat) (u : Z) : list ascii :=
  match fuel with
  | O => []
  | S fuel' =>
      if u <? 10 then [digitByte u]
      else utoa_fuel fuel' (u / 10) ++ [digitByte (u mod 10)]
  end.

Definition utoa (u : Z) : list ascii := utoa_fuel 20 u.

(** [appendInt(b, x, width)]: sign, zero padding to [width], digits. *)
Definition appendInt (x : Z) (width : nat) : list ascii :=
  let sign := if x <? 0 then ["-"%char] else [] in
  let ds := utoa (Z.abs x) in
  sign ++ repeat "0"%char (width - List.length ds) ++ ds.

(** [t.Format("01-2006")] *)
Definition Format (t : Time) : string :=
  bytes.of_list (appendInt (Month t) 2 ++ ["-"%char] ++ appendInt (Year t) 4).

(** [t.Before(u)], [t.Equal(u)] and the order the backend's date comparison
    uses: lexicographic on year and month. *)
Definition Before (t u : Time) : bool :=
  (Year t <? Year u) || ((Year t =? Year u) && (Month t <? Month u)).

Definition Equal (t u : Time) : bool :=
  (Year t =? Year u) && (Month t =? Month u).

Definition leb (t u : Time) : bool := Before t u || Equal t u.

End time.

(** ** Package uuid

    [uuid.UUID] is [[16]byte]; it is read here as the 128-bit number the bytes
    spell.  [uuid.Nil] is the all-zero value. *)

Module uuid.

Definition UUID : Type := N.
Definition Nil : UUID := 0%N.
Definition eqb (a b : UUID) : bool := N.eqb a b.

End uuid.

(** ** Package types *)

Module types.

(** Go's [int] is modelled by [Z]: the store performs no arithmetic on
    prices, it passes them to and from the backend; where an [int] is read
    from the backend ([sql.Scan_int]) the 64-bit range is checked. *)
Record Subscription : Type := mkSubscription {
  ServiceName : string;
  Price : Z;
  UserID : uuid.UUID;
  StartDate : string;
  EndDate : string
}.

(** The response payloads the handlers send ([ErrorResponse],
    [CreatedResponse], [TotalCostResponse], or a [Subscription]). *)
Inductive Body : Type :=
| ErrorResponse (Error : string)
| CreatedResponse (SubID : uuid.UUID)
| TotalCostResponse (TotalCost : Z)
| SubscriptionBody (sub : Subscription).

End types.

(** ** Error values

    A Go [error] is either one of the two sentinels in play, a
    [*time.ParseError], an error raised by the driver or the server, or a
    wrapper built by [fmt.Errorf] with one [%w] verb. *)

Module errors.

Inductive BackendError : Type :=
| ConnFailure         (* the server cannot be reached *)
| UniqueViolation     (* SQLSTATE 23505 *)
| BadParameters       (* a placeholder has no bound argument (SQLSTATE 42P18,
                         or the driver's parameter count check) *)
| ScanOutOfRange.     (* [Scan] into an [int]: "converting driver.Value ... to
                         a int: value out of range" *)

Inductive error : Type :=
| ErrNotFound                          (* storage.ErrNotFound *)
| ErrNoRows                            (* sql.ErrNoRows *)
| ParseError (e : time.ParseError)     (* *time.ParseError *)
| PqError (e : BackendError)
| Errorf (format : string) (w : error).

(** [err == target]: the sentinels are equal to themselves; every other error
    value is a fresh allocation. *)
Definition same (err target : error) : bool :=
  match err, target with
  | ErrNotFound, ErrNotFound => true
  | ErrNoRows, ErrNoRows => true
  | _, _ => false
  end.

(** [errors.Is(err, target)]: walks the chain of wrapped errors. *)
Fixpoint Is (err target : error) : bool :=
  same err target ||
  match err with
  | Errorf _ w => Is w target
  | _ => false
  end.

(** [errors.As(err, &target)] for a target of type [*time.ParseError]: the
    first error of that type in the chain, if there is one. *)
Fixpoint As_ParseError (err : error) : option time.ParseError :=
  match err with
  | ParseError e => Some e
  | Errorf _ w => As_ParseError w
  | _ => None
  end.

End errors.

(** ** The relational backend (database/sql over PostgreSQL) *)

Module sql.

Import errors.

(** Modelled from the spec: the schema of table [subscriptions], which is not
    part of the sources: "columns for id, user_id, service_name, price,
    start_date (date), end_date (nullable date)", "one row per subscription,
    id as primary key". *)
Record Row : Type := mkRow {
  sub_id : uuid.UUID;
  user_id : uuid.UUID;
  service_name : string;
  price : Z;
  start_date : time.Time;
  end_date : option time.Time      (* [None] is SQL NULL *)
}.

(** The state behind [*sql.DB]: the table, whether the server can be reached,
    and how many statements have been sent to it. *)
Record DB : Type := mkDB {
  table : list Row;
  reachable : bool;
  calls : nat
}.

Definition issue (db : DB) : DB :=
  mkDB (table db) (reachable db) (S (calls db)).

Definition with_table (db : DB) (t : list Row) : DB :=
  mkDB t (reachable db) (calls db).

(** [sql.Result]; [RowsAffected()] returns a count or an error. *)
Record Result : Type := mkResult { RowsAffected : Z + error }.

Definition has_id (id : uuid.UUID) (r : Row) : bool := uuid.eqb (sub_id r) id.

Definition count_rows (f : Row -> bool) (t : list Row) : Z :=
  Z.of_nat (List.length (filter f t)).

(** [INSERT INTO subscriptions (sub_id, user_id, service_name, price,
    start_date, end_date) VALUES ($1, $2, $3, $4, $5, $6)]; [sub_id] is the
    primary key, so a second row with a key in use is refused. *)
Definition Exec_insert (db : DB) (r : Row) : (Result + error) * DB :=
  let db := issue db in
  if negb (reachable db) then (inr (PqError ConnFailure), db)
  else if existsb (has_id (sub_id r)) (table db)
  then (inr (PqError UniqueViolation), db)
  else (inl (mkResult (inl 1)), with_table db (table db ++ [r])).

(** [UPDATE subscriptions SET service_name = $1, price = $2, start_date = $3,
    end_date = $4 WHERE sub_id = $5] *)
Definition set_columns (a1 : string) (a2 : Z) (a3 : time.Time)
    (a4 : option time.Time) (r : Row) : Row :=
  mkRow (sub_id r) (user_id r) a1 a2 a3 a4.

Definition Exec_update (db : DB) (a1 : string) (a2 : Z) (a3 : time.Time)
    (a4 : option time.Time) (a5 : uuid.UUID) : (Result + error) * DB :=
  let db := issue db in
  if negb (reachable db) then (inr (PqError ConnFailure), db)
  else
    (inl (mkResult (inl (count_rows (has_id a5) (table db)))),
     with_table db
       (map (fun r => if has_id a5 r then set_columns a1 a2 a3 a4 r else r)
            (table db))).

(** [DELETE FROM subscriptions WHERE sub_id = $1] *)
Definition Exec_delete (db : DB) (a1 : uuid.UUID) : (Result + error) * DB :=
  let db := issue db in
  if negb (reachable db) then (inr (PqError ConnFailure), db)
  else
    (inl (mkResult (inl (count_rows (has_id a1) (table db)))),
     with_table db (filter (fun r => negb (has_id a1 r)) (table db))).

(** [SELECT sub_id, user_id, service_name, price, start_date, end_date FROM
    subscriptions WHERE sub_id = $1], then [Scan]: the first row, or
    [sql.ErrNoRows]. *)
Definition QueryRow_by_id (db : DB) (a1 : uuid.UUID) : (Row + error) * DB :=
  let db := issue db in
  if negb (reachable db) then (inr (PqError ConnFailure), db)
  else
    match find (has_id a1) (table db) with
    | Some r => (inl r, db)
    | None => (inr ErrNoRows, db)
    end.

(** [ORDER BY start_date DESC], as an insertion sort (the server leaves the
    order of rows with equal keys open; this one keeps the table's). *)
Fixpoint insert_desc (r : Row) (l : list Row) : list Row :=
  match l with
  | [] => [r]
  | x :: l' =>
      if time.leb (start_date x) (start_date r) then r :: l
      else x :: insert_desc r l'
  end.

Fixpoint order_by_start_date_desc (l : list Row) : list Row :=
  match l with
  | [] => []
  | r :: l' => insert_desc r (order_by_start_date_desc l')
  end.

(** [SELECT sub_id, user_id, service_name, price, start_date, end_date FROM
    subscriptions ORDER BY start_date DESC] *)
Definition Query_all (db : DB) : (list Row + error) * DB :=
  let db := issue db in
  if negb (reachable db) then (inr (PqError ConnFailure), db)
  else (inl (order_by_start_date_desc (table db)), db).

(** *** WHERE clauses with numbered placeholders

    [GetTotalCost] assembles its statement at run time, so the statement is
    kept as syntax: comparisons of a column with a placeholder [$n], [IS NULL],
    [AND] and [OR], evaluated in SQL's three-valued logic against the bound
    arguments. *)

Inductive Value : Type :=
| VNull
| VTime (t : time.Time)
| VUUID (u : uuid.UUID)
| VText (s : string)
| VInt (n : Z).

Inductive column : Type :=
| c_sub_id | c_user_id | c_service_name | c_price | c_start_date | c_end_date.

Definition field (c : column) (r : Row) : Value :=
  match c with
  | c_sub_id => VUUID (sub_id r)
  | c_user_id => VUUID (user_id r)
  | c_service_name => VText (service_name r)
  | c_price => VInt (price r)
  | c_start_date => VTime (start_date r)
  | c_end_date =>
      match end_date r with Some t => VTime t | None => VNull end
  end.

Inductive cmp : Type := OpLe | OpGe | OpEq.

Inductive cond : Type :=
| Cmp (c : column) (op : cmp) (placeholder : nat)   (* c op $n *)
| IsNull (c : column)                                 (* c IS NULL *)
| And (a b : cond)
| Or (a b : cond).

Inductive truth : Type := T | F | U.

Definition of_bool (b : bool) : truth := if b then T else F.

Definition and3 (a b : truth) : truth :=
  match a, b with
  | F, _ | _, F => F
  | T, T => T
  | _, _ => U
  end.

Definition or3 (a b : truth) : truth :=
  match a, b with
  | T, _ | _, T => T
  | F, F => F
  | _, _ => U
  end.

(** A comparison with NULL is unknown; operands of different types are an
    error ([None]), as is an order comparison this model has no collation
    for. *)
Definition compare (op : cmp) (l r : Value) : option truth :=
  match l, r with
  | VNull, _ | _, VNull => Some U
  | VTime a, VTime b =>
      Some (of_bool match op with
                    | OpLe => time.leb a b
                    | OpGe => time.leb b a
                    | OpEq => time.Equal a b
                    end)
  | VInt a, VInt b =>
      Some (of_bool match op with
                    | OpLe => a <=? b
                    | OpGe => b <=? a
                    | OpEq => a =? b
                    end)
  | VUUID a, VUUID b =>
      match op with OpEq => Some (of_bool (uuid.eqb a b)) | _ => None end
  | VText a, VText b =>
      match op with OpEq => Some (of_bool (String.eqb a b)) | _ => None end
  | _, _ => None
  end.

(** The argument bound to [$n]; placeholders count from 1. *)
Definition bound (args : list Value) (n : nat) : option Value :=
  match n with
  | O => None
  | S k => nth_error args k
  end.

Fixpoint eval (args : list Value) (r : Row) (c : cond) : option truth :=
  match c with
  | Cmp col op n =>
      match bound args n with
      | Some v => compare op (field col r) v
      | None => None
      end
  | IsNull col =>
      Some (match field col r with VNull => T | _ => F end)
  | And a b =>
      match eval args r a, eval args r b with
      | Some x, Some y => Some (and3 x y)
      | _, _ => None
      end
  | Or a b =>
      match eval args r a, eval args r b with
      | Some x, Some y => Some (or3 x y)
      | _, _ => None
      end
  end.

Fixpoint placeholders (c : cond) : list nat :=
  match c with
  | Cmp _ _ n => [n]
  | IsNull _ => []
  | And a b | Or a b => placeholders a ++ placeholders b
  end.

(** The number of parameters a statement takes is its highest placeholder. *)
Definition nparams (c : cond) : nat := fold_right Nat.max O (placeholders c).

(** Preparing and binding a statement: each of [$1 .. $nparams] must occur
    (the server cannot type a parameter that is skipped) and the call must
    bind exactly that many arguments. *)
Definition bind_ok (c : cond) (args : list Value) : bool :=
  forallb (fun n => Nat.ltb 0 n) (placeholders c) &&
  forallb (fun n => existsb (Nat.eqb n) (placeholders c)) (seq 1 (nparams c)) &&
  Nat.eqb (List.length args) (nparams c).

(** The rows for which the WHERE clause is true (false and unknown both drop
    the row); [None] when some row makes the clause fail. *)
Fixpoint select_where (args : list Value) (c : cond) (t : list Row)
  : option (list Row) :=
  match t with
  | [] => Some []
  | r :: t' =>
      match eval args r c, select_where args c t' with
      | Some T, Some rs => Some (r :: rs)
      | Some _, Some rs => Some rs
      | _, _ => None
      end
  end.

(** [SUM(x)] is NULL over no rows. *)
Definition SUM (xs : list Z) : option Z :=
  match xs with
  | [] => None
  | _ => Some (fold_right Z.add 0 xs)
  end.

Definition COALESCE (v : option Z) (d : Z) : Z :=
  match v with Some x => x | None => d end.

(** The values of Go's [int], 64 bits wide. *)
Definition fits_int (n : Z) : bool :=
  (- 2 ^ 63 <=? n) && (n <=? 2 ^ 63 - 1).

(** [Scan(&total)] with [var total int]: a value outside the range of [int]
    is a conversion error. *)
Definition Scan_int (v : Z) : Z + error :=
  if fits_int v then inl v else inr (PqError ScanOutOfRange).

(** [SELECT COALESCE(SUM(price), 0) FROM subscriptions WHERE c], then [Scan]
    of the single column into an [int]. *)
Definition QueryRow_sum_price (db : DB) (c : cond) (args : list Value)
  : (Z + error) * DB :=
  let db := issue db in
  if negb (reachable db) then (inr (PqError ConnFailure), db)
  else if negb (bind_ok c args) then (inr (PqError BadParameters), db)
  else
    match select_where args c (table db) with
    | Some rs => (Scan_int (COALESCE (SUM (map price rs)) 0), db)
    | None => (inr (PqError BadParameters), db)
    end.

End sql.

(** ** Package storage: PostgresRepository

    Each method takes the backend state and returns its result together with
    the state it leaves.  A Go result pair [(v, err)] is a sum: [inl v] when
    [err] is nil, [inr err] otherwise (the zero value that accompanies an
    error is not kept). *)

Module storage.

Import errors types.

Definition ErrNotFound : error := errors.ErrNotFound.

(** The shared opening of [Create] and [Update]: parse [start_date], then
    [end_date] unless it is empty. *)
Definition parse_dates (sub : Subscription)
  : (time.Time * option time.Time) + error :=
  match time.Parse (StartDate sub) with
  | inr err =>
      inr (Errorf "invalid start_date format, expected MM-YYYY: %w"
                  (ParseError err))
  | inl startDate =>
      if negb (bytes.is_empty (EndDate sub)) then
        match time.Parse (EndDate sub) with
        | inr err =>
            inr (Errorf "invalid end_date format, expected MM-YYYY: %w"
                        (ParseError err))
        | inl parsedEndDate => inl (startDate, Some parsedEndDate)
        end
      else inl (startDate, None)
  end.

(** [Create]; [newUUID] is the value [uuid.New()] returns in this call. *)
Definition Create (db : sql.DB) (newUUID : uuid.UUID) (sub : Subscription)
  : (uuid.UUID + error) * sql.DB :=
  match parse_dates sub with
  | inr err => (inr err, db)
  | inl (startDate, endDate) =>
      let subID := newUUID in
      match sql.Exec_insert db
              (sql.mkRow subID (UserID sub) (ServiceName sub) (Price sub)
                         startDate endDate) with
      | (inr err, db') =>
          (inr (Errorf "failed to create subscription: %w" err), db')
      | (inl _, db') => (inl subID, db')
      end
  end.

(** The [Subscription] built from a scanned row, in [Get] and in [List]. *)
Definition from_row (r : sql.Row) : Subscription :=
  let sub :=
    mkSubscription (sql.service_name r) (sql.price r) (sql.user_id r)
                   (time.Format (sql.start_date r)) EmptyString in
  match sql.end_date r with
  | Some t =>
      mkSubscription (ServiceName sub) (Price sub) (UserID sub)
                     (StartDate sub) (time.Format t)
  | None => sub
  end.

Definition Get (db : sql.DB) (id : uuid.UUID)
  : (Subscription + error) * sql.DB :=
  match sql.QueryRow_by_id db id with
  | (inr err, db') =>
      if errors.Is err ErrNoRows then (inr ErrNotFound, db')
      else (inr (Errorf "failed to get subscription: %w" err), db')
  | (inl r, db') => (inl (from_row r), db')
  end.

Definition Update (db : sql.DB) (id : uuid.UUID) (sub : Subscription)
  : (unit + error) * sql.DB :=
  match parse_dates sub with
  | inr err => (inr err, db)
  | inl (startDate, endDate) =>
      let '(result, db') :=
        match endDate with
        | Some e =>
            sql.Exec_update db (ServiceName sub) (Price sub) startDate
                            (Some e) id
        | None =>
            sql.Exec_update db (ServiceName sub) (Price sub) startDate None id
        end in
      match result with
      | inr err => (inr (Errorf "failed to update subscription: %w" err), db')
      | inl result =>
          match sql.RowsAffected result with
          | inr err =>
              (inr (Errorf "failed to check rows affected: %w" err), db')
          | inl rowsAffected =>
              if rowsAffected =? 0 then (inr ErrNotFound, db')
              else (inl tt, db')
          end
      end
  end.

Definition Delete (db : sql.DB) (id : uuid.UUID) : (unit + error) * sql.DB :=
  match sql.Exec_delete db id with
  | (inr err, db') =>
      (inr (Errorf "failed to delete subscription: %w" err), db')
  | (inl result, db') =>
      match sql.RowsAffected result with
      | inr err => (inr (Errorf "failed to check rows affected: %w" err), db')
      | inl rowsAffected =>
          if rowsAffected =? 0 then (inr ErrNotFound, db')
          else (inl tt, db')
      end
  end.

(** The WHERE clause [GetTotalCost] starts from:
    [start_date <= $1 AND (end_date >= $2 OR end_date IS NULL)]. *)
Definition base_query : sql.cond :=
  sql.And (sql.Cmp sql.c_start_date sql.OpLe 1)
          (sql.Or (sql.Cmp sql.c_end_date sql.OpGe 2)
                  (sql.IsNull sql.c_end_date)).

(** The statement and the arguments [GetTotalCost] sends: each filter that is
    set appends a conjunct with its literal placeholder and one argument. *)
Definition total_cost_query (userID : uuid.UUID) (serviceName : string)
    (startTime endTime : time.Time) : sql.cond * list sql.Value :=
  let query := base_query in
  let args := [sql.VTime endTime; sql.VTime startTime] in
  let '(query, args) :=
    if negb (uuid.eqb userID uuid.Nil)
    then (sql.And query (sql.Cmp sql.c_user_id sql.OpEq 3),
          args ++ [sql.VUUID userID])
    else (query, args) in
  let '(query, args) :=
    if negb (bytes.is_empty serviceName)
    then (sql.And query (sql.Cmp sql.c_service_name sql.OpEq 4),
          args ++ [sql.VText serviceName])
    else (query, args) in
  (query, args).

Definition GetTotalCost (db : sql.DB) (userID : uuid.UUID)
    (serviceName periodStart periodEnd : string) : (Z + error) * sql.DB :=
  match time.Parse periodStart with
  | inr err => (inr (Errorf "invalid period_start format: %w" (ParseError err)), db)
  | inl startTime =>
      match time.Parse periodEnd with
      | inr err =>
          (inr (Errorf "invalid period_end format: %w" (ParseError err)), db)
      | inl endTime =>
          let '(query, args) :=
            total_cost_query userID serviceName startTime endTime in
          match sql.QueryRow_sum_price db query args with
          | (inr err, db') =>
              (inr (Errorf "failed to calculate total cost: %w" err), db')
          | (inl total, db') => (inl total, db')
          end
      end
  end.

(** The loop of [List] over the rows of the result: scan, convert, append.
    Scanning a row of the table's types does not fail, and [rows.Err()] is nil
    once the query itself has succeeded. *)
Fixpoint scan_rows (rows : list sql.Row) (subscriptions : list Subscription)
  : list Subscription :=
  match rows with
  | [] => subscriptions
  | r :: rows' => scan_rows rows' (subscriptions ++ [from_row r])
  end.

Definition List (db : sql.DB) : (list Subscription + error) * sql.DB :=
  match sql.Query_all db with
  | (inr err, db') =>
      (inr (Errorf "failed to list subscriptions: %w" err), db')
  | (inl rows, db') => (inl (scan_rows rows []), db')
  end.

End storage.

(** ** Package handlers: how the callers of the store classify its errors *)

Module handlers.

Import errors types.

Record Response : Type := JSON { code : Z; obj : Body }.

Definition StatusOK : Z := 200.
Definition StatusCreated : Z := 201.
Definition StatusBadRequest : Z := 400.
Definition StatusNotFound : Z := 404.
Definition StatusInternalServerError : Z := 500.

(** [CreateSub]; [bound] is the outcome of [c.ShouldBindJSON(&sub)]. *)
Definition CreateSub (db : sql.DB) (newUUID : uuid.UUID)
    (bound : option Subscription) : Response * sql.DB :=
  match bound with
  | None => (JSON StatusBadRequest (ErrorResponse "Invalid request body"), db)
  | Some sub =>
      match storage.Create db newUUID sub with
      | (inr _, db') =>
          (JSON StatusInternalServerError
                (ErrorResponse "Failed to create subscription"), db')
      | (inl subID, db') => (JSON StatusCreated (CreatedResponse subID), db')
      end
  end.

(** [GetSub]; [id] is the outcome of [getID(c)]. *)
Definition GetSub (db : sql.DB) (id : option uuid.UUID) : Response * sql.DB :=
  match id with
  | None => (JSON StatusBadRequest (ErrorResponse "Invalid ID format"), db)
  | Some id =>
      match storage.Get db id with
      | (inr err, db') =>
          if errors.Is err storage.ErrNotFound
          then (JSON StatusNotFound (ErrorResponse "Subscription not found"), db')
          else (JSON StatusInternalServerError
                     (ErrorResponse "Failed to get subscription"), db')
      | (inl sub, db') => (JSON StatusOK (SubscriptionBody sub), db')
      end
  end.

Section GetTotalCost.

(** [uuid.Parse], from the query string. *)
Variable uuid_Parse : string -> option uuid.UUID.

(** [GetTotalCost]; the four strings are the query parameters, empty when
    absent. *)
Definition GetTotalCost (db : sql.DB)
    (userIDStr serviceName periodStart periodEnd : string)
  : Response * sql.DB :=
  let periodEnd :=
    if bytes.is_empty periodEnd then "12-2100"%string else periodEnd in
  if bytes.is_empty periodStart
  then (JSON StatusBadRequest (ErrorResponse "period_start are required"), db)
  else
    let userID :=
      if negb (bytes.is_empty userIDStr)
      then uuid_Parse userIDStr
      else Some uuid.Nil in
    match userID with
    | None =>
        (JSON StatusBadRequest (ErrorResponse "Invalid user_id format"), db)
    | Some userID =>
        match storage.GetTotalCost db userID serviceName periodStart
                                   periodEnd with
        | (inr _, db') =>
            (JSON StatusInternalServerError
                  (ErrorResponse "Failed to calculate total cost"), db')
        | (inl total, db') => (JSON StatusOK (TotalCostResponse total), db')
        end
    end.

End GetTotalCost.

End handlers.

(** ** The vocabulary of the properties *)

Section Vocabulary.

Import errors types sql storage.

Definition digit_bytes : list ascii :=
  ["0"; "1"; "2"; "3"; "4"; "5"; "6"; "7"; "8"; "9"]%char.

(** The overlap test in the spec's words: the record starts no later than the
    period ends, and its end is absent or no earlier than the period's
    start. *)
Definition qualifies (period_start period_end : time.Time) (r : Row) : bool :=
  time.leb (start_date r) period_end &&
  match end_date r with
  | None => true
  | Some e => time.leb period_start e
  end.

Definition owned_by (userID : uuid.UUID) (r : Row) : bool :=
  uuid.eqb (user_id r) userID.

Definition of_service (serviceName : string) (r : Row) : bool :=
  String.eqb (service_name r) serviceName.

Definition sum_price (rs : list Row) : Z := fold_right Z.add 0 (map price rs).

(** The dates of [sub] parse to [ts] and, when [end_date] is present, to the
    end [eo] holds; an empty [end_date] goes with no end. *)
Definition parsed_dates (sub : Subscription) (ts : time.Time)
    (eo : option time.Time) : Prop :=
  time.Parse (StartDate sub) = inl ts /\
  match eo with
  | Some te => time.Parse (EndDate sub) = inl te
  | None => EndDate sub = EmptyString
  end.

(** [start_date] parses, and [end_date] is empty or parses. *)
Definition dates_parse (sub : Subscription) : Prop :=
  (exists ts, time.Parse (StartDate sub) = inl ts) /\
  (EndDate sub = EmptyString \/ exists te, time.Parse (EndDate sub) = inl te).

(** No row carries [id]: what [uuid.New()] returns, but for a collision. *)
Definition fresh (id : uuid.UUID) (db : DB) : Prop :=
  existsb (has_id id) (table db) = false.

(** [a] is listed before [b] only if [a] starts no earlier than [b]. *)
Definition starts_no_earlier (a b : Row) : Prop :=
  time.leb (start_date b) (start_date a) = true.

Definition nonneg_prices (db : DB) : Prop :=
  Forall (fun r => 0 <= price r) (table db).

(** The errors the operations of the store return. *)
Inductive returned_by_store : error -> Prop :=
| ret_Create db newUUID sub e :
    fst (Create db newUUID sub) = inr e -> returned_by_store e
| ret_Get db id e :
    fst (Get db id) = inr e -> returned_by_store e
| ret_Update db id sub e :
    fst (Update db id sub) = inr e -> returned_by_store e
| ret_Delete db id e :
    fst (Delete db id) = inr e -> returned_by_store e
| ret_GetTotalCost db userID serviceName periodStart periodEnd e :
    fst (GetTotalCost db userID serviceName periodStart periodEnd) = inr e ->
    returned_by_store e
| ret_List db e :
    fst (List db) = inr e -> returned_by_store e.

(** A wrapper around a parse error or a backend error. *)
Definition opaque_wrapper (e : error) : Prop :=
  exists format w,
    e = Errorf format w /\
    ((exists pe, w = ParseError pe) \/ (exists be, w = PqError be)).

(** Stores and inputs the properties are tried on.  [row_A] and [row_B] are
    the records A and B of the spec's overlap example. *)
Definition db_empty : DB := mkDB [] true 0.
Definition db_down : DB := mkDB [] false 0.

Definition row_A : Row :=
  mkRow 1%N 10%N "Netflix" 100 (time.Date 2024 1) (Some (time.Date 2024 12)).
Definition row_B : Row :=
  mkRow 2%N 10%N "Spotify" 200 (time.Date 2024 6) None.
Definition db_AB : DB := mkDB [row_A; row_B] true 0.

Definition db_three : DB :=
  mkDB [mkRow 1%N 10%N "Netflix" 100 (time.Date 2024 1) None;
        mkRow 2%N 11%N "Spotify" 200 (time.Date 2025 6) None;
        mkRow 3%N 12%N "Yandex" 300 (time.Date 2020 3)
              (Some (time.Date 2021 3))] true 0.

Definition sub_netflix : Subscription :=
  mkSubscription "Netflix" 100 10%N "07-2025" "".
Definition sub_other_owner : Subscription :=
  mkSubscription "Kinopoisk" 450 77%N "02-2023" "11-2023".
Definition sub_bad_start : Subscription :=
  mkSubscription "Netflix" 100 10%N "2025-07" "".
Definition sub_bad_end : Subscription :=
  mkSubscription "Netflix" 100 10%N "07-2025" "07-20255".
Definition sub_negative : Subscription :=
  mkSubscription "Netflix" (-5) 10%N "07-2025" "".
Definition sub_single_digit : Subscription :=
  mkSubscription "Netflix" 100 10%N "7-2025" "".

End Vocabulary.

(** ** Package handlers, continued: UpdateSub, DeleteSub, ListSubs

    As in [handlers.GetSub] and [handlers.CreateSub], [id] is the outcome of
    [getID(c)] and [bound] that of [c.ShouldBindJSON(&sub)]. *)

Module handlers_crud.

Import errors types.

(** The payloads of these three handlers; [IDResponse] carries the id whose
    [String()] the response spells. *)
Inductive Body : Type :=
| ErrorResponse (Error : string)
| IDResponse (ID : uuid.UUID)
| ListSubscriptionsResponse (Subscriptions : list Subscription) (Count : Z).

Record Response : Type := JSON { code : Z; obj : Body }.

Definition UpdateSub (db : sql.DB) (id : option uuid.UUID)
    (bound : option Subscription) : Response * sql.DB :=
  match id with
  | None =>
      (JSON handlers.StatusBadRequest (ErrorResponse "Invalid ID format"), db)
  | Some id =>
      match bound with
      | None =>
          (JSON handlers.StatusBadRequest
                (ErrorResponse "Invalid request body"), db)
      | Some sub =>
          match storage.Update db id sub with
          | (inr err, db') =>
              if errors.Is err storage.ErrNotFound
              then (JSON handlers.StatusNotFound
                         (ErrorResponse "Subscription not found"), db')
              else (JSON handlers.StatusInternalServerError
                         (ErrorResponse "Failed to update subscription"), db')
          | (inl _, db') => (JSON handlers.StatusOK (IDResponse id), db')
          end
      end
  end.

Definition DeleteSub (db : sql.DB) (id : option uuid.UUID)
  : Response * sql.DB :=
  match id with
  | None =>
      (JSON handlers.StatusBadRequest (ErrorResponse "Invalid ID format"), db)
  | Some id =>
      match storage.Delete db id with
      | (inr err, db') =>
          if errors.Is err storage.ErrNotFound
          then (JSON handlers.StatusNotFound
                     (ErrorResponse "Subscription not found"), db')
          else (JSON handlers.StatusInternalServerError
                     (ErrorResponse "Failed to delete subscription"), db')
      | (inl _, db') => (JSON handlers.StatusOK (IDResponse id), db')
      end
  end.

Definition ListSubs (db : sql.DB) : Response * sql.DB :=
  match storage.List db with
  | (inr _, db') =>
      (JSON handlers.StatusInternalServerError
            (ErrorResponse "Failed to list subscriptions"), db')
  | (inl subs, db') =>
      (JSON handlers.StatusOK
            (ListSubscriptionsResponse subs (Z.of_nat (List.length subs))),
       db')
  end.

End handlers_crud.

(** ** Further vocabulary *)

Section MoreVocabulary.

Import errors types sql storage.

(** A month of a four-digit year: what the layout "01-2006" can spell. *)
Definition month_year (t : time.Time) : Prop :=
  1 <= time.Month t <= 12 /\ 0 <= time.Year t <= 9999.

Definition row_dates_ok (r : Row) : Prop :=
  month_year (start_date r) /\
  match end_date r with
  | Some e => month_year e
  | None => True
  end.

(** Every date in the table is a month of a four-digit year. *)
Definition dates_ok (db : DB) : Prop := Forall row_dates_ok (table db).

(** No two rows carry the same id. *)
Definition unique_ids (db : DB) : Prop := NoDup (map sub_id (table db)).

(** The period from [s1] to [e1] lies within the period from [s2] to [e2]. *)
Definition period_within (s1 e1 s2 e2 : time.Time) : Prop :=
  time.leb s2 s1 = true /\ time.leb e1 e2 = true.

Definition db_down_AB : DB := mkDB [row_A; row_B] false 0.

(** What GetTotalCost makes of a sum the backend has computed: the sum when
    it fits an [int], the wrapped [Scan] error when it does not. *)
Definition scanned_total (sum : Z) : Z + error :=
  if fits_int sum then inl sum
  else inr (Errorf "failed to calculate total cost: %w"
                   (PqError ScanOutOfRange)).

(** The three kinds of failure, and the kind a caller reads off an error
    value with the two tests of package errors: [errors.Is] against the
    store's sentinel, then [errors.As] for a [*time.ParseError]; what is
    neither is a failure of the backend. *)
Inductive Kind : Type := NotFound | InvalidDateFormat | StorageFailure.

Definition kind (e : error) : Kind :=
  if errors.Is e storage.ErrNotFound then NotFound
  else match errors.As_ParseError e with
       | Some _ => InvalidDateFormat
       | None => StorageFailure
       end.

(** The record a row stands for, column by column: the text columns, the
    price and the owner as they are, the dates in the form "MM-YYYY", a NULL
    end date as the empty string. *)
Definition record_of (r : Row) : Subscription :=
  mkSubscription (service_name r) (price r) (user_id r)
                 (time.Format (start_date r))
                 match end_date r with
                 | Some e => time.Format e
                 | None => EmptyString
                 end.

(** A version 4 UUID (60601fee-2bf1-4721-ae6f-7636e79a0cba) and two bodies
    that pass the binding tags of [Subscription]. *)
Definition user_v4 : uuid.UUID := 0x60601fee2bf14721ae6f7636e79a0cba%N.
Definition sub_yandex : Subscription :=
  mkSubscription "Yandex" 299 user_v4 "07-2025" "".
Definition sub_yandex_single_digit : Subscription :=
  mkSubscription "Yandex" 299 user_v4 "7-2025" "".

(** Two rows whose prices fit an [int] and whose sum does not. *)
Definition db_big : DB :=
  mkDB [mkRow 1%N 10%N "Netflix" (2 ^ 62) (time.Date 2024 1) None;
        mkRow 2%N 10%N "Spotify" (2 ^ 62) (time.Date 2024 6) None] true 0.

End MoreVocabulary.

(** * Properties *)

(** ** Parsing and formatting month-year dates *)

Section MonthYear.

Import time.

Lemma isDigitByte_In (c : ascii) :
  isDigitByte c = true -> In c digit_bytes.
Proof.
  destruct c as [[] [] [] [] [] [] [] []]; cbv; intro H;
    solve [discriminate H | tauto].
Qed.

(** A string [Parse] accepts is two digits, a dash and four digits, and the
    value is what the digits spell. *)
Lemma atoi_unsigned (c : ascii) (s : string) :
  isDigitByte c = true ->
  atoi (String c s) =
  if negb (bytes.is_empty (snd (leadingInt (String c s)))) then None
  else Some (fst (leadingInt (String c s))).
Proof.
  intro Hc. unfold atoi.
  assert (Hsign : Ascii.eqb c "-" = false /\ Ascii.eqb c "+" = false).
  { apply isDigitByte_In in Hc. cbv [digit_bytes In] in Hc.
    intuition (subst; reflexivity). }
  destruct Hsign as [-> ->].
  destruct (leadingInt (String c s)) as [q rem]. reflexivity.
Qed.

Lemma skip_nothing (value : string) : skip value "" = Some value.
Proof. destruct value; reflexivity. Qed.

Lemma skip_dash (value : string) :
  skip value "-" =
  match value with
  | String v value' => if Ascii.eqb v "-" then Some value' else None
  | EmptyString => None
  end.
Proof.
  destruct value as [|v value']; [reflexivity|].
  simpl. destruct (Ascii.eqb v "-"); [apply skip_nothing | reflexivity].
Qed.

Lemma Parse_inl_shape (s : string) (t : Time) :
  Parse s = inl t ->
  exists m1 m2 y1 y2 y3 y4,
    s = bytes.of_list [m1; m2; "-"%char; y1; y2; y3; y4] /\
    Forall (fun c => isDigitByte c = true) [m1; m2; y1; y2; y3; y4] /\
    t = Date (((digitVal y1 * 10 + digitVal y2) * 10 + digitVal y3) * 10
              + digitVal y4)
             (digitVal m1 * 10 + digitVal m2) /\
    1 <= Month t <= 12.
Proof.
  unfold Parse. rewrite skip_nothing.
  unfold getnum, isDigit, byteAt.
  destruct s as [|m1 [|m2 s]]; simpl String.get; cbn match;
    try (intro; discriminate).
  - destruct (isDigitByte m1); intro; discriminate.
  - destruct (isDigitByte m1) eqn:Hm1; cbn [negb]; try (intro; discriminate).
    destruct (isDigitByte m2) eqn:Hm2; cbn [negb bytes.drop];
      try (intro; discriminate).
    set (month := digitVal m1 * 10 + digitVal m2).
    destruct ((month <=? 0) || (12 <? month)) eqn:Hrange;
      try (intro; discriminate).
    apply orb_false_iff in Hrange.
    rewrite skip_dash.
    destruct s as [|h s]; try (intro; discriminate).
    destruct (Ascii.eqb h "-") eqn:Hh; try (intro; discriminate).
    apply Ascii.eqb_eq in Hh; subst h.
    destruct s as [|y1 [|y2 [|y3 [|y4 rest]]]];
      try (intro; discriminate).
    replace (bytes.len (String y1 (String y2 (String y3 (String y4 rest)))) <? 4)
      with false
      by (symmetry; apply Z.ltb_ge; unfold bytes.len; cbn [String.length]; lia).
    simpl String.get. cbn [orb bytes.take bytes.drop].
    destruct (isDigitByte y1) eqn:Hy1; cbn [negb]; try (intro; discriminate).
    rewrite (atoi_unsigned _ _ Hy1). unfold leadingInt.
    cbn [leadingInt_from]. rewrite Hy1.
    destruct (isDigitByte y2) eqn:Hy2; cbn [bytes.is_empty negb fst snd];
      try (intro; discriminate).
    destruct (isDigitByte y3) eqn:Hy3; cbn [bytes.is_empty negb fst snd];
      try (intro; discriminate).
    destruct (isDigitByte y4) eqn:Hy4; cbn [bytes.is_empty negb fst snd];
      try (intro; discriminate).
    destruct rest; cbn [bytes.is_empty negb]; try (intro; discriminate).
    intro H; injection H as <-.
    exists m1, m2, y1, y2, y3, y4. cbn [bytes.of_list Month].
    repeat split; auto 10; fold month; lia.
Qed.

Lemma of_list_app (a b : list ascii) :
  bytes.of_list (a ++ b) = (bytes.of_list a ++ bytes.of_list b)%string.
Proof. induction a as [|c a IH]; simpl; [|rewrite IH]; reflexivity. Qed.

(** [appendInt] writes back the digits a two- or four-digit number was read
    from; checked on all of them. *)
Lemma appendInt_2_check :
  forallb (fun a => forallb (fun b =>
    String.eqb (bytes.of_list (appendInt (digitVal a * 10 + digitVal b) 2))
               (bytes.of_list [a; b]))
    digit_bytes) digit_bytes = true.
Proof. vm_compute. reflexivity. Qed.

Lemma appendInt_4_check :
  forallb (fun a => forallb (fun b => forallb (fun c => forallb (fun d =>
    String.eqb
      (bytes.of_list
         (appendInt (((digitVal a * 10 + digitVal b) * 10 + digitVal c) * 10
                     + digitVal d) 4))
      (bytes.of_list [a; b; c; d]))
    digit_bytes) digit_bytes) digit_bytes) digit_bytes = true.
Proof. vm_compute. reflexivity. Qed.

Lemma appendInt_2_digits (a b : ascii) :
  isDigitByte a = true -> isDigitByte b = true ->
  bytes.of_list (appendInt (digitVal a * 10 + digitVal b) 2) =
  bytes.of_list [a; b].
Proof.
  intros Ha Hb. apply isDigitByte_In in Ha, Hb.
  pose proof appendInt_2_check as H.
  rewrite forallb_forall in H. specialize (H a Ha).
  rewrite forallb_forall in H. specialize (H b Hb).
  now apply String.eqb_eq.
Qed.

Lemma appendInt_4_digits (a b c d : ascii) :
  isDigitByte a = true -> isDigitByte b = true ->
  isDigitByte c = true -> isDigitByte d = true ->
  bytes.of_list
    (appendInt (((digitVal a * 10 + digitVal b) * 10 + digitVal c) * 10
                + digitVal d) 4) =
  bytes.of_list [a; b; c; d].
Proof.
  intros Ha Hb Hc Hd. apply isDigitByte_In in Ha, Hb, Hc, Hd.
  pose proof appendInt_4_check as H.
  rewrite forallb_forall in H. specialize (H a Ha).
  rewrite forallb_forall in H. specialize (H b Hb).
  rewrite forallb_forall in H. specialize (H c Hc).
  rewrite forallb_forall in H. specialize (H d Hd).
  now apply String.eqb_eq.
Qed.

(** Formatting what [Parse] returned gives back the string that was parsed. *)
Lemma Format_Parse (s : string) (t : Time) :
  Parse s = inl t -> Format t = s.
Proof.
  intro H. apply Parse_inl_shape in H.
  destruct H as (m1 & m2 & y1 & y2 & y3 & y4 & -> & Hd & -> & _).
  repeat match goal with
         | H : Forall _ (_ :: _) |- _ => inversion H; clear H; subst
         end.
  unfold Format. cbn [Year Month].
  rewrite !of_list_app, appendInt_2_digits, appendInt_4_digits by assumption.
  reflexivity.
Qed.

(** [Parse] never accepts the empty string. *)
Lemma Parse_empty : Parse "" = inr errBad.
Proof. reflexivity. Qed.

End MonthYear.

(** ** The backend's WHERE clauses *)

Section Where.

Import sql.

(** When a clause evaluates on every row to the truth value of a boolean
    test, the statement selects the rows that pass the test. *)
Lemma select_where_filter (args : list Value) (c : cond) (p : Row -> bool)
    (t : list Row) :
  (forall r, eval args r c = Some (of_bool (p r))) ->
  select_where args c t = Some (filter p t).
Proof.
  intro Hev. induction t as [|r t IH]; [reflexivity|].
  cbn [select_where filter]. rewrite Hev, IH.
  destruct (p r); reflexivity.
Qed.

Lemma filter_none {A : Type} (p : A -> bool) (l : list A) :
  forallb (fun x => negb (p x)) l = true -> filter p l = [].
Proof.
  induction l as [|x l IH]; [reflexivity|].
  cbn [forallb filter]. intro H. apply andb_true_iff in H as [Hx Hl].
  apply negb_true_iff in Hx. rewrite Hx. now apply IH.
Qed.

Lemma COALESCE_SUM (xs : list Z) :
  COALESCE (SUM xs) 0 = fold_right Z.add 0 xs.
Proof. destruct xs; reflexivity. Qed.

Lemma and3_of_bool (a b : bool) :
  and3 (of_bool a) (of_bool b) = of_bool (a && b).
Proof. destruct a, b; reflexivity. Qed.

End Where.

(** ** GetTotalCost *)

Section TotalCost.

Import errors sql storage.

Lemma eval_base_query (startTime endTime : time.Time) (rest : list Value)
    (r : Row) :
  eval (VTime endTime :: VTime startTime :: rest) r base_query =
  Some (of_bool (qualifies startTime endTime r)).
Proof.
  unfold base_query, qualifies. cbn [eval bound nth_error field compare].
  destruct (end_date r) as [e|]; cbn [compare];
    destruct (time.leb (start_date r) endTime);
    try destruct (time.leb startTime e); reflexivity.
Qed.

Lemma is_empty_false (s : string) : s <> EmptyString -> bytes.is_empty s = false.
Proof. destruct s; [congruence | reflexivity]. Qed.

Lemma uuid_eqb_Nil_false (u : uuid.UUID) : u <> uuid.Nil -> uuid.eqb u uuid.Nil = false.
Proof. intro H. now apply N.eqb_neq. Qed.

(** What the sum statement returns once it is accepted and its clause is a
    boolean test. *)
Lemma QueryRow_sum_price_ok (db : DB) (c : cond) (args : list Value)
    (p : Row -> bool) :
  reachable db = true ->
  bind_ok c args = true ->
  (forall r, eval args r c = Some (of_bool (p r))) ->
  QueryRow_sum_price db c args =
  (Scan_int (sum_price (filter p (table db))), issue db).
Proof.
  intros Hup Hbind Hev. unfold QueryRow_sum_price.
  cbn [issue reachable table]. rewrite Hup, Hbind. cbn [negb].
  rewrite (select_where_filter _ _ p) by assumption.
  now rewrite COALESCE_SUM.
Qed.

Lemma scanned_total_fits (sum : Z) :
  fits_int sum = true -> scanned_total sum = inl sum.
Proof. intro H. unfold scanned_total. now rewrite H. Qed.

(** The result of GetTotalCost once the statement has returned a sum. *)
Lemma GetTotalCost_scanned (db : DB) (sum : Z) :
  match Scan_int sum with
  | inl total => (@inl Z error total, issue db)
  | inr err =>
      (inr (Errorf "failed to calculate total cost: %w" err), issue db)
  end = (scanned_total sum, issue db).
Proof. unfold Scan_int, scanned_total. now destruct (fits_int sum). Qed.

(** With a user filter only: the owner's qualifying records. *)
Lemma GetTotalCost_user (db : DB) (userID : uuid.UUID)
    (periodStart periodEnd : string) (ts te : time.Time) :
  reachable db = true ->
  time.Parse periodStart = inl ts -> time.Parse periodEnd = inl te ->
  userID <> uuid.Nil ->
  fst (GetTotalCost db userID "" periodStart periodEnd) =
  scanned_total
    (sum_price
       (filter (fun r => qualifies ts te r && owned_by userID r) (table db))).
Proof.
  intros Hup Hs He Hu. unfold GetTotalCost, total_cost_query.
  rewrite Hs, He, (uuid_eqb_Nil_false _ Hu). cbn [negb bytes.is_empty app].
  erewrite QueryRow_sum_price_ok;
    [rewrite GetTotalCost_scanned; reflexivity | assumption | reflexivity |].
  intro r. cbn [eval]. rewrite eval_base_query.
  cbn [bound nth_error field compare]. now rewrite and3_of_bool.
Qed.

(** With both filters: the conjunction of the two. *)
Lemma GetTotalCost_user_service (db : DB) (userID : uuid.UUID)
    (serviceName periodStart periodEnd : string) (ts te : time.Time) :
  reachable db = true ->
  time.Parse periodStart = inl ts -> time.Parse periodEnd = inl te ->
  userID <> uuid.Nil -> serviceName <> EmptyString ->
  fst (GetTotalCost db userID serviceName periodStart periodEnd) =
  scanned_total
    (sum_price
       (filter (fun r => qualifies ts te r && owned_by userID r
                         && of_service serviceName r) (table db))).
Proof.
  intros Hup Hs He Hu Hn. unfold GetTotalCost, total_cost_query.
  rewrite Hs, He, (uuid_eqb_Nil_false _ Hu), (is_empty_false _ Hn).
  cbn [negb app].
  erewrite QueryRow_sum_price_ok;
    [rewrite GetTotalCost_scanned; reflexivity | assumption | reflexivity |].
  intro r. cbn [eval]. rewrite eval_base_query.
  cbn [bound nth_error field compare]. now rewrite !and3_of_bool.
Qed.

(** With a service filter only, the statement mentions [$4] while three
    arguments are bound: the backend refuses it, whatever the table holds. *)
Lemma GetTotalCost_service_only (db : DB)
    (serviceName periodStart periodEnd : string) (ts te : time.Time) :
  reachable db = true ->
  time.Parse periodStart = inl ts -> time.Parse periodEnd = inl te ->
  serviceName <> EmptyString ->
  GetTotalCost db uuid.Nil serviceName periodStart periodEnd =
  (inr (Errorf "failed to calculate total cost: %w" (PqError BadParameters)),
   issue db).
Proof.
  intros Hup Hs He Hn. unfold GetTotalCost, total_cost_query.
  rewrite Hs, He, (is_empty_false _ Hn).
  cbn [uuid.eqb uuid.Nil N.eqb negb app].
  unfold QueryRow_sum_price. cbn [issue reachable table]. rewrite Hup.
  reflexivity.
Qed.

(** Without filters: the qualifying records. *)
Lemma GetTotalCost_unfiltered (db : DB) (periodStart periodEnd : string)
    (ts te : time.Time) :
  reachable db = true ->
  time.Parse periodStart = inl ts -> time.Parse periodEnd = inl te ->
  GetTotalCost db uuid.Nil "" periodStart periodEnd =
  (scanned_total (sum_price (filter (qualifies ts te) (table db))), issue db).
Proof.
  intros Hup Hs He. unfold GetTotalCost, total_cost_query. rewrite Hs, He.
  cbn [uuid.eqb uuid.Nil N.eqb negb bytes.is_empty].
  erewrite QueryRow_sum_price_ok;
    [apply GetTotalCost_scanned | assumption | reflexivity |].
  intro r. apply eval_base_query.
Qed.

(** C1: with parseable period bounds and no filters, GetTotalCost returns the
    sum of price over exactly the records that start no later than the period
    ends and whose end is absent or no earlier than the period's start; when
    no record qualifies, the empty store included, it returns 0 and no
    error.  (The backend is taken to answer, and the sum to be a value of
    Go's int, into which it is scanned; a sum that is not comes back as the
    wrapped Scan error, a failure of the backend like any other.) *)
Theorem C1_total_cost_overlap (db : DB) (periodStart periodEnd : string)
    (ts te : time.Time) :
  reachable db = true ->
  time.Parse periodStart = inl ts ->
  time.Parse periodEnd = inl te ->
  (sql.fits_int (sum_price (filter (qualifies ts te) (table db))) = true ->
   fst (GetTotalCost db uuid.Nil "" periodStart periodEnd) =
     inl (sum_price (filter (qualifies ts te) (table db)))) /\
  (forallb (fun r => negb (qualifies ts te r)) (table db) = true ->
   fst (GetTotalCost db uuid.Nil "" periodStart periodEnd) = inl 0) /\
  (sql.fits_int (sum_price (filter (qualifies ts te) (table db))) = false ->
   fst (GetTotalCost db uuid.Nil "" periodStart periodEnd) =
     inr (Errorf "failed to calculate total cost: %w"
                 (PqError ScanOutOfRange))) /\
  table (snd (GetTotalCost db uuid.Nil "" periodStart periodEnd)) = table db.
Proof.
  intros Hup Hs He.
  rewrite (GetTotalCost_unfiltered db periodStart periodEnd ts te Hup Hs He).
  cbn [fst snd issue table]. split; [|split; [|split]].
  - apply scanned_total_fits.
  - intro Hnone. rewrite (filter_none _ _ Hnone). reflexivity.
  - intro Hbig. unfold scanned_total. now rewrite Hbig.
  - reflexivity.
Qed.

End TotalCost.

(** ** Create, Get, Update, Delete *)

Section Crud.

Import errors types sql storage.

Lemma dates_parse_parsed (sub : Subscription) :
  dates_parse sub -> exists ts eo, parsed_dates sub ts eo.
Proof.
  intros [[ts Hs] [He | [te He]]].
  - exists ts, None. now split.
  - exists ts, (Some te). now split.
Qed.

Lemma parse_dates_inl (sub : Subscription) (ts : time.Time)
    (eo : option time.Time) :
  parsed_dates sub ts eo -> parse_dates sub = inl (ts, eo).
Proof.
  intros [Hs He]. unfold parse_dates. rewrite Hs. destruct eo as [te|].
  - destruct (EndDate sub) as [|c s] eqn:E; [discriminate He|].
    cbn [bytes.is_empty negb]. now rewrite He.
  - now rewrite He.
Qed.

Lemma parse_dates_parsed (sub : Subscription) (ts : time.Time)
    (eo : option time.Time) :
  parse_dates sub = inl (ts, eo) -> parsed_dates sub ts eo.
Proof.
  unfold parse_dates, parsed_dates.
  destruct (time.Parse (StartDate sub)) as [ts'|e]; [|discriminate].
  destruct (EndDate sub) as [|c s] eqn:E; cbn [bytes.is_empty negb].
  - intro H. injection H as <- <-. now split.
  - destruct (time.Parse (String c s)) as [te|e]; [|discriminate].
    intro H. injection H as <- <-. now split.
Qed.

(** A row written from [sub] with its parsed dates reads back as [sub]. *)
Lemma from_row_parsed (id : uuid.UUID) (sub : Subscription) (ts : time.Time)
    (eo : option time.Time) :
  parsed_dates sub ts eo ->
  from_row (mkRow id (UserID sub) (ServiceName sub) (Price sub) ts eo) = sub.
Proof.
  intros [Hs He]. apply Format_Parse in Hs.
  destruct sub as [n p u sd ed]. cbn [StartDate EndDate] in *.
  unfold from_row. cbn [sql.end_date sql.start_date sql.service_name sql.price
                         sql.user_id ServiceName Price UserID StartDate].
  destruct eo as [te|].
  - apply Format_Parse in He. now rewrite Hs, He.
  - now rewrite Hs, He.
Qed.

Lemma from_row_set_columns (sub : Subscription) (ts : time.Time)
    (eo : option time.Time) (r : Row) :
  parsed_dates sub ts eo ->
  from_row (set_columns (ServiceName sub) (Price sub) ts eo r) =
  mkSubscription (ServiceName sub) (Price sub) (user_id r) (StartDate sub)
                 (EndDate sub).
Proof.
  intro Hp.
  exact (from_row_parsed (sub_id r)
           (mkSubscription (ServiceName sub) (Price sub) (user_id r)
                           (StartDate sub) (EndDate sub)) ts eo Hp).
Qed.

Lemma find_fresh (id : uuid.UUID) (t : list Row) :
  existsb (has_id id) t = false -> find (has_id id) t = None.
Proof.
  induction t as [|r t IH]; [reflexivity|].
  cbn [existsb find]. intro H. apply orb_false_iff in H as [Hr Ht].
  rewrite Hr. now apply IH.
Qed.

Lemma find_app_fresh (id : uuid.UUID) (t : list Row) (r : Row) :
  existsb (has_id id) t = false -> sub_id r = id ->
  find (has_id id) (t ++ [r]) = Some r.
Proof.
  intros Hf Hr. induction t as [|x t IH].
  - cbn. unfold has_id, uuid.eqb. now rewrite Hr, N.eqb_refl.
  - cbn [existsb] in Hf. apply orb_false_iff in Hf as [Hx Ht].
    cbn [app find]. rewrite Hx. now apply IH.
Qed.

Lemma count_rows_fresh (id : uuid.UUID) (t : list Row) :
  existsb (has_id id) t = false -> count_rows (has_id id) t = 0.
Proof.
  intro H. unfold count_rows.
  replace (filter (has_id id) t) with (@nil Row); [reflexivity|].
  symmetry. apply filter_none. induction t as [|r t IH]; [reflexivity|].
  cbn [existsb] in H. apply orb_false_iff in H as [Hr Ht].
  cbn [forallb]. rewrite Hr. now apply IH.
Qed.

Lemma count_rows_found (id : uuid.UUID) (t : list Row) (r : Row) :
  find (has_id id) t = Some r -> 0 < count_rows (has_id id) t.
Proof.
  unfold count_rows. induction t as [|x t IH]; [discriminate|].
  cbn [find filter]. destruct (has_id id x).
  - intros _. cbn [List.length]. lia.
  - exact IH.
Qed.

Lemma map_untouched (id : uuid.UUID) (f : Row -> Row) (t : list Row) :
  existsb (has_id id) t = false ->
  map (fun r => if has_id id r then f r else r) t = t.
Proof.
  induction t as [|r t IH]; [reflexivity|].
  cbn [existsb map]. intro H. apply orb_false_iff in H as [Hr Ht].
  rewrite Hr. f_equal. now apply IH.
Qed.

Lemma filter_untouched (id : uuid.UUID) (t : list Row) :
  existsb (has_id id) t = false ->
  filter (fun r => negb (has_id id r)) t = t.
Proof.
  induction t as [|r t IH]; [reflexivity|].
  cbn [existsb filter]. intro H. apply orb_false_iff in H as [Hr Ht].
  rewrite Hr. cbn [negb]. f_equal. now apply IH.
Qed.

(** [Get] against a backend that answers. *)
Lemma Get_reachable (db : DB) (id : uuid.UUID) :
  reachable db = true ->
  Get db id =
  (match find (has_id id) (table db) with
   | Some r => inl (from_row r)
   | None => inr ErrNotFound
   end, issue db).
Proof.
  intro Hup. unfold Get, QueryRow_by_id. cbn [issue reachable table].
  rewrite Hup. cbn [negb]. destruct (find (has_id id) (table db)); reflexivity.
Qed.

(** [Update] against a backend that answers, once the dates have parsed. *)
Lemma Update_reachable (db : DB) (id : uuid.UUID) (sub : Subscription)
    (ts : time.Time) (eo : option time.Time) :
  reachable db = true -> parsed_dates sub ts eo ->
  Update db id sub =
  (if count_rows (has_id id) (table db) =? 0 then inr ErrNotFound else inl tt,
   with_table (issue db)
     (map (fun r => if has_id id r
                    then set_columns (ServiceName sub) (Price sub) ts eo r
                    else r) (table db))).
Proof.
  intros Hup Hd. unfold Update. rewrite (parse_dates_inl _ _ _ Hd).
  assert (E : Exec_update db (ServiceName sub) (Price sub) ts eo id =
              (inl (mkResult (inl (count_rows (has_id id) (table db)))),
               with_table (issue db)
                 (map (fun r => if has_id id r
                                then set_columns (ServiceName sub) (Price sub)
                                                 ts eo r
                                else r) (table db)))).
  { unfold Exec_update. cbn [issue reachable table]. now rewrite Hup. }
  destruct eo as [te|]; rewrite E; cbn [RowsAffected];
    destruct (count_rows (has_id id) (table db) =? 0); reflexivity.
Qed.

(** A successful [Create] is read back by [Get] as the input. *)
Lemma Create_then_Get (db db' : DB) (newUUID id : uuid.UUID)
    (sub : Subscription) :
  Create db newUUID sub = (inl id, db') ->
  id = newUUID /\ fresh newUUID db /\ dates_parse sub /\
  fst (Get db' id) = inl sub.
Proof.
  unfold Create. destruct (parse_dates sub) as [[ts eo]|e] eqn:Hd;
    [|discriminate].
  apply parse_dates_parsed in Hd.
  unfold Exec_insert. cbn [issue reachable table sub_id].
  destruct (reachable db) eqn:Hup; cbn [negb]; [|discriminate].
  destruct (existsb (has_id newUUID) (table db)) eqn:Hf; [discriminate|].
  intro H. injection H as <- <-. repeat split; try assumption.
  - destruct Hd as [Hs _]. now exists ts.
  - destruct Hd as [_ He]. destruct eo as [te|]; [right; now exists te | now left].
  - rewrite Get_reachable by exact Hup. cbn [with_table table fst].
    rewrite (find_app_fresh newUUID) by (assumption || reflexivity).
    now rewrite (from_row_parsed _ _ _ _ Hd).
Qed.

Lemma Create_succeeds (db : DB) (newUUID : uuid.UUID) (sub : Subscription)
    (ts : time.Time) (eo : option time.Time) :
  reachable db = true -> fresh newUUID db -> parsed_dates sub ts eo ->
  Create db newUUID sub =
  (inl newUUID,
   with_table (issue db)
     (table db ++ [mkRow newUUID (UserID sub) (ServiceName sub) (Price sub)
                         ts eo])).
Proof.
  intros Hup Hf Hd. unfold Create. rewrite (parse_dates_inl _ _ _ Hd).
  unfold Exec_insert. cbn [issue reachable table sub_id].
  rewrite Hup, Hf. reflexivity.
Qed.

(** C3: for an input whose start_date parses and whose end_date is empty or
    parses, Create succeeds with the newly generated id, and Get on that id
    then returns the input itself: service_name, price, user_id, start_date
    and end_date as given; an empty end_date is stored as NULL and read back
    empty.  (The backend is taken to answer, and the generated id to be
    unused.) *)
Theorem C3_create_get_roundtrip (db : DB) (newUUID : uuid.UUID)
    (sub : Subscription) :
  reachable db = true ->
  fresh newUUID db ->
  dates_parse sub ->
  exists db',
    Create db newUUID sub = (inl newUUID, db') /\
    fst (Get db' newUUID) = inl sub /\
    (EndDate sub = EmptyString ->
     exists r, find (has_id newUUID) (table db') = Some r /\
               end_date r = None).
Proof.
  intros Hup Hf Hd.
  destruct (dates_parse_parsed _ Hd) as (ts & eo & Hp).
  eexists. split; [apply (Create_succeeds _ _ _ ts eo); assumption|].
  split.
  - pose proof (Create_succeeds _ _ _ ts eo Hup Hf Hp) as Hc.
    now apply Create_then_Get in Hc.
  - intro Hempty. eexists. cbn [with_table table]. split.
    + apply find_app_fresh; [exact Hf | reflexivity].
    + cbn [end_date]. destruct Hp as [_ He]. destruct eo as [te|]; [|reflexivity].
      rewrite Hempty in He. discriminate He.
Qed.

(** C4: for an id no row carries, Get, Update (with dates that parse) and
    Delete each return ErrNotFound, and each leaves the table as it was.
    (The backend is taken to answer.) *)
Theorem C4_missing_id_not_found (db : DB) (id : uuid.UUID)
    (sub : Subscription) :
  reachable db = true ->
  fresh id db ->
  dates_parse sub ->
  (fst (Get db id) = inr ErrNotFound /\ table (snd (Get db id)) = table db) /\
  (fst (Update db id sub) = inr ErrNotFound /\
   table (snd (Update db id sub)) = table db) /\
  (fst (Delete db id) = inr ErrNotFound /\
   table (snd (Delete db id)) = table db).
Proof.
  intros Hup Hf Hd. repeat split.
  - rewrite Get_reachable by exact Hup. cbn [fst]. now rewrite find_fresh.
  - now rewrite Get_reachable by exact Hup.
  - destruct (dates_parse_parsed _ Hd) as (ts & eo & Hp).
    rewrite (Update_reachable _ _ _ ts eo) by assumption.
    cbn [fst]. now rewrite count_rows_fresh.
  - destruct (dates_parse_parsed _ Hd) as (ts & eo & Hp).
    rewrite (Update_reachable _ _ _ ts eo) by assumption.
    cbn [snd with_table table issue]. now apply map_untouched.
  - unfold Delete, Exec_delete. cbn [issue reachable table]. rewrite Hup.
    cbn [negb RowsAffected]. now rewrite count_rows_fresh.
  - unfold Delete, Exec_delete. cbn [issue reachable table]. rewrite Hup.
    cbn [negb RowsAffected]. rewrite count_rows_fresh by exact Hf.
    cbn [snd with_table table]. now apply filter_untouched.
Qed.

Lemma find_map_update (id id' : uuid.UUID) (f : Row -> Row) (t : list Row) :
  (forall r, sub_id (f r) = sub_id r) ->
  find (has_id id') (map (fun r => if has_id id r then f r else r) t) =
  option_map (fun r => if has_id id r then f r else r) (find (has_id id') t).
Proof.
  intro Hf. induction t as [|r t IH]; [reflexivity|].
  cbn [map find].
  replace (has_id id' (if has_id id r then f r else r)) with (has_id id' r)
    by (unfold has_id; destruct (uuid.eqb (sub_id r) id);
        [now rewrite Hf | reflexivity]).
  destruct (has_id id' r); [reflexivity | exact IH].
Qed.

Lemma find_has_id (id : uuid.UUID) (t : list Row) (r : Row) :
  find (has_id id) t = Some r -> sub_id r = id.
Proof.
  intro H. apply find_some in H as [_ H]. now apply N.eqb_eq in H.
Qed.

(** C5: for an id some row carries and an input whose dates parse, Update
    succeeds; the table it leaves is the old one with service_name, price,
    start_date and end_date of the rows carrying the id set from the input and
    everything else as before -- id and user_id of the target, and every other
    row; Get then returns the input's four fields with the owner the row had,
    whatever user_id the input carries, and reads every other id as before.
    (The backend is taken to answer.) *)
Theorem C5_update_overwrites_four_columns (db : DB) (id : uuid.UUID)
    (sub old : Subscription) :
  reachable db = true ->
  dates_parse sub ->
  fst (Get db id) = inl old ->
  exists ts eo,
    parsed_dates sub ts eo /\
    fst (Update db id sub) = inl tt /\
    table (snd (Update db id sub)) =
      map (fun r => if has_id id r
                    then mkRow (sub_id r) (user_id r) (ServiceName sub)
                               (Price sub) ts eo
                    else r) (table db) /\
    fst (Get (snd (Update db id sub)) id) =
      inl (mkSubscription (ServiceName sub) (Price sub) (UserID old)
                          (StartDate sub) (EndDate sub)) /\
    forall id', id' <> id ->
      fst (Get (snd (Update db id sub)) id') = fst (Get db id').
Proof.
  intros Hup Hd Hold.
  destruct (dates_parse_parsed _ Hd) as (ts & eo & Hp).
  exists ts, eo. split; [exact Hp|].
  rewrite Get_reachable in Hold by exact Hup. cbn [fst] in Hold.
  destruct (find (has_id id) (table db)) as [r|] eqn:Hfind; [|discriminate].
  injection Hold as <-.
  rewrite (Update_reachable _ _ _ ts eo) by assumption. cbn [fst snd].
  assert (Hup' : forall t, reachable (with_table (issue db) t) = true)
    by (intro; exact Hup).
  repeat split.
  - pose proof (count_rows_found _ _ _ Hfind) as Hpos.
    destruct (count_rows (has_id id) (table db) =? 0) eqn:E; [|reflexivity].
    apply Z.eqb_eq in E. lia.
  - rewrite Get_reachable by apply Hup'. cbn [fst with_table table].
    rewrite find_map_update by reflexivity. rewrite Hfind. cbn [option_map].
    rewrite (proj2 (find_some _ _ Hfind)). f_equal.
    replace (UserID (from_row r)) with (user_id r)
      by (unfold from_row; destruct (end_date r); reflexivity).
    now apply from_row_set_columns.
  - intros id' Hne. rewrite !Get_reachable by (apply Hup' || exact Hup).
    cbn [fst with_table table]. rewrite find_map_update by reflexivity.
    destruct (find (has_id id') (table db)) as [r'|] eqn:Hfind';
      [|reflexivity].
    cbn [option_map]. apply find_has_id in Hfind'.
    replace (has_id id r') with false; [reflexivity|].
    symmetry. apply N.eqb_neq. congruence.
Qed.

(** C6: an unparseable period_start, or period_end, makes GetTotalCost return
    the invalid-format error that wraps the parse error, and an unparseable
    start_date, or non-empty end_date, does the same to Create and to Update;
    in each case the backend state comes back as it was, the count of
    statements sent included: nothing is read and nothing is written, whether
    or not the backend could have answered. *)
Theorem C6_invalid_dates_rejected_before_backend (db : DB)
    (userID id : uuid.UUID) (serviceName periodStart periodEnd : string)
    (sub : Subscription) (e : time.ParseError) :
  (time.Parse periodStart = inr e ->
   GetTotalCost db userID serviceName periodStart periodEnd =
   (inr (Errorf "invalid period_start format: %w" (ParseError e)), db)) /\
  ((exists ts, time.Parse periodStart = inl ts) ->
   time.Parse periodEnd = inr e ->
   GetTotalCost db userID serviceName periodStart periodEnd =
   (inr (Errorf "invalid period_end format: %w" (ParseError e)), db)) /\
  (time.Parse (StartDate sub) = inr e ->
   Create db id sub =
     (inr (Errorf "invalid start_date format, expected MM-YYYY: %w"
                  (ParseError e)), db) /\
   Update db id sub =
     (inr (Errorf "invalid start_date format, expected MM-YYYY: %w"
                  (ParseError e)), db)) /\
  ((exists ts, time.Parse (StartDate sub) = inl ts) ->
   EndDate sub <> EmptyString ->
   time.Parse (EndDate sub) = inr e ->
   Create db id sub =
     (inr (Errorf "invalid end_date format, expected MM-YYYY: %w"
                  (ParseError e)), db) /\
   Update db id sub =
     (inr (Errorf "invalid end_date format, expected MM-YYYY: %w"
                  (ParseError e)), db)).
Proof.
  split; [|split; [|split]].
  - intro H. unfold GetTotalCost. now rewrite H.
  - intros [ts Hs] H. unfold GetTotalCost. now rewrite Hs, H.
  - intro H. unfold Create, Update, parse_dates. now rewrite H.
  - intros [ts Hs] Hne H. unfold Create, Update, parse_dates.
    now rewrite Hs, (is_empty_false _ Hne), H.
Qed.

End Crud.

(** ** List *)

Section Listing.

Import errors types sql storage.

Lemma time_leb_total (t u : time.Time) :
  time.leb t u = false -> time.leb u t = true.
Proof.
  unfold time.leb, time.Before, time.Equal. intro H.
  destruct (Z.compare_spec (time.Year t) (time.Year u)) as [E|L|G];
    destruct (Z.compare_spec (time.Month t) (time.Month u)) as [E'|L'|G'];
    repeat match goal with
           | |- context [?a <? ?b] =>
               destruct (Z.ltb_spec a b); try lia
           | |- context [?a =? ?b] =>
               destruct (Z.eqb_spec a b); try lia
           | H : context [?a <? ?b] |- _ =>
               destruct (Z.ltb_spec a b); try lia
           | H : context [?a =? ?b] |- _ =>
               destruct (Z.eqb_spec a b); try lia
           end; cbn in *; congruence.
Qed.

Lemma time_leb_trans (t u v : time.Time) :
  time.leb t u = true -> time.leb u v = true -> time.leb t v = true.
Proof.
  unfold time.leb, time.Before, time.Equal. intros H1 H2.
  repeat match goal with
         | H : context [?a <? ?b] |- _ => destruct (Z.ltb_spec a b)
         | H : context [?a =? ?b] |- _ => destruct (Z.eqb_spec a b)
         | |- context [?a <? ?b] => destruct (Z.ltb_spec a b)
         | |- context [?a =? ?b] => destruct (Z.eqb_spec a b)
         end; cbn in *; try congruence; lia.
Qed.

Lemma insert_desc_perm (r : Row) (l : list Row) :
  Permutation (insert_desc r l) (r :: l).
Proof.
  induction l as [|x l IH]; cbn [insert_desc]; [reflexivity|].
  destruct (time.leb (start_date x) (start_date r)); [reflexivity|].
  rewrite IH. apply perm_swap.
Qed.

Lemma order_by_perm (l : list Row) :
  Permutation (order_by_start_date_desc l) l.
Proof.
  induction l as [|r l IH]; cbn [order_by_start_date_desc]; [reflexivity|].
  rewrite insert_desc_perm. now apply perm_skip.
Qed.

Lemma insert_desc_sorted (r : Row) (l : list Row) :
  StronglySorted starts_no_earlier l ->
  StronglySorted starts_no_earlier (insert_desc r l).
Proof.
  induction 1 as [|x l Hl IH Hx]; cbn [insert_desc].
  - repeat constructor.
  - destruct (time.leb (start_date x) (start_date r)) eqn:E.
    + constructor; [now constructor|].
      constructor; [exact E|].
      eapply Forall_impl; [|exact Hx].
      intros y Hy. unfold starts_no_earlier in *.
      now apply (time_leb_trans _ (start_date x)).
    + constructor; [exact IH|].
      eapply Permutation_Forall; [symmetry; apply insert_desc_perm|].
      constructor; [|exact Hx].
      now apply time_leb_total.
Qed.

Lemma order_by_sorted (l : list Row) :
  StronglySorted starts_no_earlier (order_by_start_date_desc l).
Proof.
  induction l as [|r l IH]; cbn [order_by_start_date_desc].
  - constructor.
  - now apply insert_desc_sorted.
Qed.

Lemma scan_rows_app (rows : list Row) (subscriptions : list Subscription) :
  scan_rows rows subscriptions = subscriptions ++ map from_row rows.
Proof.
  revert subscriptions. induction rows as [|r rows IH]; intro acc;
    cbn [scan_rows map].
  - now rewrite app_nil_r.
  - now rewrite IH, <- app_assoc.
Qed.

Lemma StartDate_from_row (r : Row) :
  StartDate (from_row r) = time.Format (start_date r).
Proof. unfold from_row. destruct (end_date r); reflexivity. Qed.

Lemma from_row_record_of (r : Row) : from_row r = record_of r.
Proof. unfold from_row, record_of. destruct (end_date r); reflexivity. Qed.

(** C7: List returns the record of every row of the table, each once and
    each with its service name, price, owner and dates, in an order in which
    every record starts no earlier than those after it; on an empty table it
    returns the empty sequence and no error; and rows starting 01-2024,
    06-2025 and 03-2020 are listed as 06-2025, 01-2024, 03-2020.  (The
    backend is taken to answer.) *)
Theorem C7_list_by_start_date_desc (db : DB) :
  reachable db = true ->
  (exists rows,
     fst (List db) = inl (map record_of rows) /\
     Permutation rows (table db) /\
     StronglySorted starts_no_earlier rows) /\
  (table db = [] -> fst (List db) = inl []) /\
  (forall r1 r2 r3,
     table db = [r1; r2; r3] ->
     start_date r1 = time.Date 2024 1 ->
     start_date r2 = time.Date 2025 6 ->
     start_date r3 = time.Date 2020 3 ->
     fst (List db) = inl [record_of r2; record_of r1; record_of r3] /\
     map StartDate [record_of r2; record_of r1; record_of r3] =
       ["06-2025"; "01-2024"; "03-2020"]%string).
Proof.
  intro Hup.
  assert (Hrun : fst (List db) =
                 inl (map record_of (order_by_start_date_desc (table db)))).
  { unfold List, Query_all. cbn [issue reachable table]. rewrite Hup.
    cbn [negb fst]. rewrite scan_rows_app. cbn [app]. f_equal.
    apply map_ext, from_row_record_of. }
  rewrite Hrun. split; [|split].
  - exists (order_by_start_date_desc (table db)).
    split; [reflexivity|]. split; [apply order_by_perm | apply order_by_sorted].
  - intros ->. reflexivity.
  - intros r1 r2 r3 -> H1 H2 H3. split.
    + assert (E2 : insert_desc r2 [r3] = [r2; r3])
        by (cbn [insert_desc]; rewrite H3, H2; reflexivity).
      assert (E1 : insert_desc r1 [r2; r3] = [r2; r1; r3])
        by (cbn [insert_desc]; rewrite H2, H1, H3; reflexivity).
      cbn [order_by_start_date_desc]. change (insert_desc r3 []) with [r3].
      now rewrite E2, E1.
    + unfold record_of. cbn [map StartDate]. now rewrite H1, H2, H3.
Qed.

End Listing.

(** ** Negative prices, single-digit months *)

Section Inputs.

Import errors types sql storage.

Lemma count_rows_find (id : uuid.UUID) (t : list Row) :
  count_rows (has_id id) t <> 0 -> exists r, find (has_id id) t = Some r.
Proof.
  intro H. destruct (find (has_id id) t) as [r|] eqn:E; [now exists r|].
  exfalso. apply H. apply count_rows_fresh. clear H.
  induction t as [|x t IH]; [reflexivity|].
  cbn [find] in E. cbn [existsb]. destruct (has_id id x); [discriminate|].
  now apply IH.
Qed.

(** What a successful [Update] implies and leaves. *)
Lemma Update_inl (db db' : DB) (id : uuid.UUID) (sub : Subscription) :
  Update db id sub = (inl tt, db') ->
  exists ts eo r,
    parsed_dates sub ts eo /\ reachable db = true /\
    find (has_id id) (table db) = Some r /\
    db' = with_table (issue db)
            (map (fun r => if has_id id r
                           then set_columns (ServiceName sub) (Price sub) ts eo r
                           else r) (table db)).
Proof.
  intro H. destruct (parse_dates sub) as [[ts eo]|e] eqn:Hd.
  - apply parse_dates_parsed in Hd.
    destruct (reachable db) eqn:Hup.
    + rewrite (Update_reachable _ _ _ ts eo) in H by assumption.
      destruct (count_rows (has_id id) (table db) =? 0) eqn:E;
        [discriminate|].
      apply Z.eqb_neq, count_rows_find in E as [r Hr].
      injection H as <-. now exists ts, eo, r.
    + unfold Update in H. rewrite (parse_dates_inl _ _ _ Hd) in H.
      unfold Exec_update in H. cbn [issue reachable] in H. rewrite Hup in H.
      destruct eo; discriminate H.
  - unfold Update in H. rewrite Hd in H. discriminate H.
Qed.

(** C9, amended: Create and Update store the input's price as it is given,
    without a check of their own; so a table whose prices are non-negative
    stays so under Create and Update of any input whose price is
    non-negative, and the row a successful Create or Update leaves under the
    id carries exactly the input's price. *)
Theorem C9_price_stored_as_given (db : DB) (id : uuid.UUID)
    (sub : Subscription) :
  (0 <= Price sub -> nonneg_prices db ->
   nonneg_prices (snd (Create db id sub)) /\
   nonneg_prices (snd (Update db id sub))) /\
  (forall id' db',
     Create db id sub = (inl id', db') ->
     exists r, find (has_id id') (table db') = Some r /\ price r = Price sub) /\
  (forall db',
     Update db id sub = (inl tt, db') ->
     exists r, find (has_id id) (table db') = Some r /\ price r = Price sub).
Proof.
  split; [intros Hp Hdb; split | split].
  - unfold nonneg_prices, Create in *.
    destruct (parse_dates sub) as [[ts eo]|e]; [|exact Hdb].
    unfold Exec_insert. cbn [issue reachable table sub_id].
    destruct (reachable db); cbn [negb]; [|exact Hdb].
    destruct (existsb (has_id id) (table db)); [exact Hdb|].
    cbn [snd with_table table]. apply Forall_app. split; [exact Hdb|].
    now repeat constructor.
  - unfold nonneg_prices in *.
    destruct (parse_dates sub) as [[ts eo]|e] eqn:Hd.
    + destruct (reachable db) eqn:Hup.
      * apply parse_dates_parsed in Hd.
        rewrite (Update_reachable _ _ _ ts eo) by assumption.
        cbn [snd with_table table]. apply Forall_map.
        eapply Forall_impl; [|exact Hdb].
        intros r Hr. cbn beta. now destruct (has_id id r).
      * unfold Update. rewrite Hd. unfold Exec_update.
        cbn [issue reachable]. rewrite Hup. now destruct eo.
    + unfold Update. now rewrite Hd.
  - intros id' db' Hc. pose proof Hc as Hc'.
    apply Create_then_Get in Hc' as (-> & Hf & Hd & _).
    destruct (dates_parse_parsed _ Hd) as (ts & eo & Hp).
    assert (Hup : reachable db = true).
    { unfold Create in Hc. rewrite (parse_dates_inl _ _ _ Hp) in Hc.
      unfold Exec_insert in Hc. cbn [issue reachable] in Hc.
      destruct (reachable db); [reflexivity | discriminate Hc]. }
    rewrite (Create_succeeds _ _ _ ts eo) in Hc by assumption.
    injection Hc as <-. eexists. cbn [with_table table]. split.
    + apply find_app_fresh; [exact Hf | reflexivity].
    + reflexivity.
  - intros db' Hu. apply Update_inl in Hu as (ts & eo & r & Hp & Hup & Hr & ->).
    eexists. cbn [with_table table]. split.
    + rewrite find_map_update by reflexivity. rewrite Hr. reflexivity.
    + cbn beta. rewrite (proj2 (find_some _ _ Hr)). reflexivity.
Qed.

(** C10, amended: the store parses dates strictly in the two-digit-month
    form: Create and Update turn down an input whose start_date or end_date
    is "7-2025" with the invalid-format error and leave the backend alone;
    and whenever Create or Update succeeds, Get afterwards returns start_date
    and end_date byte for byte as they were submitted. *)
Theorem C10_dates_strict_and_verbatim (db : DB) (id : uuid.UUID)
    (sub : Subscription) :
  (StartDate sub = "7-2025"%string \/ EndDate sub = "7-2025"%string ->
   (exists format e,
      Create db id sub = (inr (Errorf format (ParseError e)), db)) /\
   (exists format e,
      Update db id sub = (inr (Errorf format (ParseError e)), db))) /\
  (forall id' db',
     Create db id sub = (inl id', db') ->
     exists got, fst (Get db' id') = inl got /\
                 StartDate got = StartDate sub /\ EndDate got = EndDate sub) /\
  (forall db',
     Update db id sub = (inl tt, db') ->
     exists got, fst (Get db' id) = inl got /\
                 StartDate got = StartDate sub /\ EndDate got = EndDate sub).
Proof.
  split; [intro H; split | split].
  - unfold Create, parse_dates.
    destruct H as [H|H]; rewrite H.
    + cbn. eauto.
    + destruct (time.Parse (StartDate sub)); cbn; eauto.
  - unfold Update, parse_dates.
    destruct H as [H|H]; rewrite H.
    + cbn. eauto.
    + destruct (time.Parse (StartDate sub)); cbn; eauto.
  - intros id' db' Hc. apply Create_then_Get in Hc as (_ & _ & _ & Hg).
    now exists sub.
  - intros db' Hu. apply Update_inl in Hu as (ts & eo & r & Hp & Hup & Hr & ->).
    rewrite Get_reachable by exact Hup. cbn [fst with_table table].
    rewrite find_map_update by reflexivity. rewrite Hr. cbn [option_map].
    rewrite (proj2 (find_some _ _ Hr)). eexists. split; [reflexivity|].
    rewrite (from_row_set_columns _ _ _ _ Hp). now split.
Qed.

End Inputs.

(** ** Error kinds *)

Section Kinds.

Import errors types sql storage.

Lemma opaque_wrapper_Is (e : error) :
  opaque_wrapper e -> errors.Is e ErrNotFound = false.
Proof.
  intros (format & w & -> & [[pe ->] | [be ->]]); reflexivity.
Qed.

Lemma opaque_parse (format : string) (pe : time.ParseError) :
  opaque_wrapper (Errorf format (ParseError pe)).
Proof. exists format, (ParseError pe). eauto. Qed.

Lemma opaque_backend (format : string) (be : BackendError) :
  opaque_wrapper (Errorf format (PqError be)).
Proof. exists format, (PqError be). eauto. Qed.

Lemma parse_dates_error (sub : Subscription) (e : error) :
  parse_dates sub = inr e -> opaque_wrapper e.
Proof.
  unfold parse_dates. intro H.
  destruct (time.Parse (StartDate sub)) as [ts|pe];
    [|injection H as <-; apply opaque_parse].
  destruct (negb (bytes.is_empty (EndDate sub))); [|discriminate H].
  destruct (time.Parse (EndDate sub)) as [te|pe];
    [discriminate H | injection H as <-; apply opaque_parse].
Qed.

Lemma Create_error (db : DB) (newUUID : uuid.UUID) (sub : Subscription)
    (e : error) :
  fst (Create db newUUID sub) = inr e -> opaque_wrapper e.
Proof.
  unfold Create. destruct (parse_dates sub) as [[ts eo]|e'] eqn:Hd.
  - unfold Exec_insert. cbn [sub_id]. intro H.
    destruct (negb (reachable (issue db)));
      [|destruct (existsb (has_id newUUID) (table (issue db)))];
      cbn [fst] in H; try discriminate H; injection H as <-;
      auto using opaque_backend.
  - cbn [fst]. intro H. injection H as <-. now apply parse_dates_error in Hd.
Qed.

Lemma GetTotalCost_error (db : DB) (userID : uuid.UUID)
    (serviceName periodStart periodEnd : string) (e : error) :
  fst (GetTotalCost db userID serviceName periodStart periodEnd) = inr e ->
  opaque_wrapper e.
Proof.
  unfold GetTotalCost.
  destruct (time.Parse periodStart) as [ts|pe];
    [|intro H; injection H as <-; apply opaque_parse].
  destruct (time.Parse periodEnd) as [te|pe];
    [|intro H; injection H as <-; apply opaque_parse].
  destruct (total_cost_query userID serviceName ts te) as [query args].
  unfold QueryRow_sum_price, Scan_int. intro H.
  destruct (negb (reachable (issue db)));
    [|destruct (negb (bind_ok query args));
      [|destruct (select_where args query (table (issue db))) as [rs|];
        [destruct (fits_int (COALESCE (SUM (map price rs)) 0))|]]];
    cbn [fst] in H; try discriminate H; injection H as <-;
    auto using opaque_backend.
Qed.

Lemma Get_error (db : DB) (id : uuid.UUID) (e : error) :
  fst (Get db id) = inr e -> e = ErrNotFound \/ opaque_wrapper e.
Proof.
  unfold Get, QueryRow_by_id. intro H.
  destruct (negb (reachable (issue db)));
    [|destruct (find (has_id id) (table (issue db)))];
    cbn in H; try discriminate H; injection H as <-;
    auto using opaque_backend.
Qed.

Lemma Update_error (db : DB) (id : uuid.UUID) (sub : Subscription)
    (e : error) :
  fst (Update db id sub) = inr e -> e = ErrNotFound \/ opaque_wrapper e.
Proof.
  unfold Update. destruct (parse_dates sub) as [[ts eo]|e'] eqn:Hd.
  - unfold Exec_update. intro H.
    destruct eo; destruct (negb (reachable (issue db)));
      cbn [RowsAffected fst] in H;
      try (injection H as <-; auto using opaque_backend);
      destruct (count_rows (has_id id) (table (issue db)) =? 0);
      cbn [fst] in H; try discriminate H; injection H as <-; auto.
  - cbn [fst]. intro H. injection H as <-. right.
    now apply parse_dates_error in Hd.
Qed.

Lemma Delete_error (db : DB) (id : uuid.UUID) (e : error) :
  fst (Delete db id) = inr e -> e = ErrNotFound \/ opaque_wrapper e.
Proof.
  unfold Delete, Exec_delete. intro H.
  destruct (negb (reachable (issue db)));
    cbn [RowsAffected fst] in H;
    try (injection H as <-; auto using opaque_backend);
    destruct (count_rows (has_id id) (table (issue db)) =? 0);
    cbn [fst] in H; try discriminate H; injection H as <-; auto.
Qed.

Lemma List_error (db : DB) (e : error) :
  fst (List db) = inr e -> opaque_wrapper e.
Proof.
  unfold List, Query_all. intro H.
  destruct (negb (reachable (issue db))); cbn [fst] in H;
    [injection H as <-; auto using opaque_backend | discriminate H].
Qed.

Lemma kind_parse (format : string) (pe : time.ParseError) :
  kind (Errorf format (ParseError pe)) = InvalidDateFormat.
Proof. reflexivity. Qed.

Lemma kind_backend (format : string) (be : BackendError) :
  kind (Errorf format (PqError be)) = StorageFailure.
Proof. reflexivity. Qed.

Lemma parse_dates_inr (sub : Subscription) (e : error) :
  parse_dates sub = inr e ->
  ~ dates_parse sub /\ exists format pe, e = Errorf format (ParseError pe).
Proof.
  intro H. split.
  - intro Hd. destruct (dates_parse_parsed _ Hd) as (ts & eo & Hp).
    rewrite (parse_dates_inl _ _ _ Hp) in H. discriminate H.
  - unfold parse_dates in H.
    destruct (time.Parse (StartDate sub)) as [ts|pe];
      [|injection H as <-; eauto].
    destruct (negb (bytes.is_empty (EndDate sub))); [|discriminate H].
    destruct (time.Parse (EndDate sub)) as [te|pe];
      [discriminate H | injection H as <-; eauto].
Qed.

Lemma parse_dates_inl_dates_parse (sub : Subscription) (ts : time.Time)
    (eo : option time.Time) :
  parse_dates sub = inl (ts, eo) -> dates_parse sub.
Proof.
  intro H. apply parse_dates_parsed in H as [Hs He].
  split; [now exists ts|].
  destruct eo as [te|]; [right; now exists te | now left].
Qed.

(** The errors of Create, by cause. *)
Lemma Create_error_kind (db : DB) (newUUID : uuid.UUID) (sub : Subscription)
    (e : error) :
  fst (Create db newUUID sub) = inr e ->
  (~ dates_parse sub /\ exists format pe, e = Errorf format (ParseError pe)) \/
  (dates_parse sub /\ exists format be, e = Errorf format (PqError be)).
Proof.
  unfold Create. destruct (parse_dates sub) as [[ts eo]|e'] eqn:Hd.
  - apply parse_dates_inl_dates_parse in Hd.
    unfold Exec_insert. cbn [sub_id]. intro H. right. split; [exact Hd|].
    destruct (negb (reachable (issue db)));
      [|destruct (existsb (has_id newUUID) (table (issue db)))];
      cbn [fst] in H; try discriminate H; injection H as <-; eauto.
  - cbn [fst]. intro H. injection H as <-. left. now apply parse_dates_inr.
Qed.

(** The errors of Update, by cause. *)
Lemma Update_error_kind (db : DB) (id : uuid.UUID) (sub : Subscription)
    (e : error) :
  fst (Update db id sub) = inr e ->
  (~ dates_parse sub /\ exists format pe, e = Errorf format (ParseError pe)) \/
  (dates_parse sub /\
   (e = ErrNotFound \/ exists format be, e = Errorf format (PqError be))).
Proof.
  unfold Update. destruct (parse_dates sub) as [[ts eo]|e'] eqn:Hd.
  - apply parse_dates_inl_dates_parse in Hd.
    unfold Exec_update. intro H. right. split; [exact Hd|].
    destruct eo; destruct (negb (reachable (issue db)));
      cbn [RowsAffected fst] in H;
      try (injection H as <-; eauto);
      destruct (count_rows (has_id id) (table (issue db)) =? 0);
      cbn [fst] in H; try discriminate H; injection H as <-; auto.
  - cbn [fst]. intro H. injection H as <-. left. now apply parse_dates_inr.
Qed.

(** The errors of GetTotalCost, by cause. *)
Lemma GetTotalCost_error_kind (db : DB) (userID : uuid.UUID)
    (serviceName periodStart periodEnd : string) (e : error) :
  fst (GetTotalCost db userID serviceName periodStart periodEnd) = inr e ->
  (((exists pe, time.Parse periodStart = inr pe) \/
    (exists pe, time.Parse periodEnd = inr pe)) /\
   exists format pe, e = Errorf format (ParseError pe)) \/
  (((exists ts, time.Parse periodStart = inl ts) /\
    (exists te, time.Parse periodEnd = inl te)) /\
   exists format be, e = Errorf format (PqError be)).
Proof.
  unfold GetTotalCost.
  destruct (time.Parse periodStart) as [ts|pe];
    [|intro H; injection H as <-; left; eauto 6].
  destruct (time.Parse periodEnd) as [te|pe];
    [|intro H; injection H as <-; left; eauto 6].
  destruct (total_cost_query userID serviceName ts te) as [query args].
  unfold QueryRow_sum_price, Scan_int. intro H. right. split; [eauto|].
  destruct (negb (reachable (issue db)));
    [|destruct (negb (bind_ok query args));
      [|destruct (select_where args query (table (issue db))) as [rs|];
        [destruct (fits_int (COALESCE (SUM (map price rs)) 0))|]]];
    cbn [fst] in H; try discriminate H; injection H as <-; eauto.
Qed.

(** The errors of Get, Delete and List. *)
Lemma Get_error_kind (db : DB) (id : uuid.UUID) (e : error) :
  fst (Get db id) = inr e ->
  e = ErrNotFound \/ exists format be, e = Errorf format (PqError be).
Proof.
  unfold Get, QueryRow_by_id. intro H.
  destruct (negb (reachable (issue db)));
    [|destruct (find (has_id id) (table (issue db)))];
    cbn in H; try discriminate H; injection H as <-; eauto.
Qed.

Lemma Delete_error_kind (db : DB) (id : uuid.UUID) (e : error) :
  fst (Delete db id) = inr e ->
  e = ErrNotFound \/ exists format be, e = Errorf format (PqError be).
Proof.
  unfold Delete, Exec_delete. intro H.
  destruct (negb (reachable (issue db)));
    cbn [RowsAffected fst] in H;
    try (injection H as <-; eauto);
    destruct (count_rows (has_id id) (table (issue db)) =? 0);
    cbn [fst] in H; try discriminate H; injection H as <-; auto.
Qed.

Lemma List_error_kind (db : DB) (e : error) :
  fst (List db) = inr e -> exists format be, e = Errorf format (PqError be).
Proof.
  unfold List, Query_all. intro H.
  destruct (negb (reachable (issue db))); cbn [fst] in H;
    [injection H as <-; eauto | discriminate H].
Qed.

(** C8: every error an operation of the store returns has exactly one of the
    three kinds, read off the value with errors.Is and errors.As: it is the
    sentinel ErrNotFound (NotFound), or a wrapper of a *time.ParseError
    (InvalidDateFormat), or a wrapper of an error of the backend
    (StorageFailure).  The kind tells the cause: Create, Update and
    GetTotalCost return InvalidDateFormat exactly when a date does not parse,
    and otherwise what they return is StorageFailure or, for Update,
    NotFound; so an invalid-date failure of Create or GetTotalCost and a
    backend failure differ in kind.  Get and Delete return NotFound or
    StorageFailure; Create, GetTotalCost and List never return NotFound. *)
Theorem C8_errors_have_one_of_three_kinds :
  (forall e, returned_by_store e ->
     (e = ErrNotFound /\ kind e = NotFound) \/
     ((exists format pe, e = Errorf format (ParseError pe)) /\
      kind e = InvalidDateFormat) \/
     ((exists format be, e = Errorf format (PqError be)) /\
      kind e = StorageFailure)) /\
  (forall db newUUID sub e,
     fst (Create db newUUID sub) = inr e ->
     (~ dates_parse sub -> kind e = InvalidDateFormat) /\
     (dates_parse sub -> kind e = StorageFailure)) /\
  (forall db id sub e,
     fst (Update db id sub) = inr e ->
     (~ dates_parse sub -> kind e = InvalidDateFormat) /\
     (dates_parse sub -> kind e = NotFound \/ kind e = StorageFailure)) /\
  (forall db userID serviceName periodStart periodEnd e,
     fst (GetTotalCost db userID serviceName periodStart periodEnd) = inr e ->
     ((exists pe, time.Parse periodStart = inr pe) \/
      (exists pe, time.Parse periodEnd = inr pe) ->
      kind e = InvalidDateFormat) /\
     ((exists ts, time.Parse periodStart = inl ts) ->
      (exists te, time.Parse periodEnd = inl te) ->
      kind e = StorageFailure)) /\
  (forall db id e,
     (fst (Get db id) = inr e \/ fst (Delete db id) = inr e) ->
     kind e = NotFound \/ kind e = StorageFailure) /\
  (forall db e, fst (List db) = inr e -> kind e = StorageFailure).
Proof.
  split; [|split; [|split; [|split; [|split]]]].
  - intros e He.
    destruct He as [db newUUID sub e H | db id e H | db id sub e H
                   | db id e H | db u s ps1 ps2 e H | db e H].
    + apply Create_error_kind in H
        as [[_ (f & pe & ->)] | [_ (f & be & ->)]]; eauto 8.
    + apply Get_error_kind in H as [-> | (f & be & ->)]; eauto 8.
    + apply Update_error_kind in H
        as [[_ (f & pe & ->)] | [_ [-> | (f & be & ->)]]]; eauto 8.
    + apply Delete_error_kind in H as [-> | (f & be & ->)]; eauto 8.
    + apply GetTotalCost_error_kind in H
        as [[_ (f & pe & ->)] | [_ (f & be & ->)]]; eauto 8.
    + apply List_error_kind in H as (f & be & ->). eauto 8.
  - intros db newUUID sub e H.
    apply Create_error_kind in H
      as [[Hbad (f & pe & ->)] | [Hok (f & be & ->)]]; split; intro Hd;
      try reflexivity; contradiction.
  - intros db id sub e H.
    apply Update_error_kind in H
      as [[Hbad (f & pe & ->)] | [Hok [-> | (f & be & ->)]]]; split; intro Hd;
      try reflexivity; try contradiction; auto.
  - intros db u s ps pe e H.
    apply GetTotalCost_error_kind in H
      as [[Hbad (f & pe' & ->)] | [[[ts Hs] [te He]] (f & be & ->)]];
      split; try reflexivity.
    + intros [ts Hs] [te He].
      destruct Hbad as [[x Hx] | [x Hx]]; congruence.
    + intros [[x Hx] | [x Hx]]; congruence.
  - intros db id e [H | H].
    + apply Get_error_kind in H as [-> | (f & be & ->)]; auto.
    + apply Delete_error_kind in H as [-> | (f & be & ->)]; auto.
  - intros db e H. apply List_error_kind in H as (f & be & ->). reflexivity.
Qed.

End Kinds.

(** ** The claims on concrete stores *)

Section Concrete.

Import errors types sql storage.

(** C2: GetTotalCost with a service name and no user: the claim has it
    return the sum over that service's qualifying records, 100 on this store;
    the statement sent mentions [$4] with three arguments bound, and the call
    returns the storage error instead. *)
Theorem C2_service_filter_without_user_fails :
  GetTotalCost db_AB uuid.Nil "Netflix" "01-2024" "12-2024" =
    (inr (Errorf "failed to calculate total cost: %w" (PqError BadParameters)),
     issue db_AB) /\
  sum_price
    (filter (fun r => qualifies (time.Date 2024 1) (time.Date 2024 12) r
                      && of_service "Netflix" r) (table db_AB)) = 100.
Proof.
  split; [|reflexivity].
  now apply (GetTotalCost_service_only db_AB "Netflix" "01-2024" "12-2024"
               (time.Date 2024 1) (time.Date 2024 12)).
Qed.

Lemma C1_witness :
  reachable db_AB = true /\
  fst (GetTotalCost db_AB uuid.Nil "" "03-2024" "03-2024") = inl 100 /\
  fst (GetTotalCost db_AB uuid.Nil "" "01-2025" "12-2100") = inl 200 /\
  fst (GetTotalCost db_empty uuid.Nil "" "01-2025" "12-2100") = inl 0 /\
  fst (GetTotalCost db_big uuid.Nil "" "01-2025" "12-2100") =
    inr (Errorf "failed to calculate total cost: %w" (PqError ScanOutOfRange)).
Proof.
  split; [reflexivity|]. split; [|split; [|split]].
  - exact (proj1 (C1_total_cost_overlap db_AB "03-2024" "03-2024"
                    (time.Date 2024 3) (time.Date 2024 3)
                    eq_refl eq_refl eq_refl) eq_refl).
  - exact (proj1 (C1_total_cost_overlap db_AB "01-2025" "12-2100"
                    (time.Date 2025 1) (time.Date 2100 12)
                    eq_refl eq_refl eq_refl) eq_refl).
  - exact (proj1 (proj2 (C1_total_cost_overlap db_empty "01-2025" "12-2100"
                           (time.Date 2025 1) (time.Date 2100 12)
                           eq_refl eq_refl eq_refl)) eq_refl).
  - exact (proj1 (proj2 (proj2 (C1_total_cost_overlap db_big "01-2025"
                                  "12-2100" (time.Date 2025 1)
                                  (time.Date 2100 12)
                                  eq_refl eq_refl eq_refl))) eq_refl).
Defined.

Lemma sub_netflix_dates_parse : dates_parse sub_netflix.
Proof. split; [now exists (time.Date 2025 7) | now left]. Defined.

Lemma sub_other_owner_dates_parse : dates_parse sub_other_owner.
Proof.
  split; [now exists (time.Date 2023 2) | right; now exists (time.Date 2023 11)].
Defined.

Lemma C3_witness :
  exists db',
    Create db_AB 7%N sub_netflix = (inl 7%N, db') /\
    fst (Get db' 7%N) = inl sub_netflix /\
    (EndDate sub_netflix = EmptyString ->
     exists r, find (has_id 7%N) (table db') = Some r /\ end_date r = None).
Proof.
  exact (C3_create_get_roundtrip db_AB 7%N sub_netflix eq_refl eq_refl
           sub_netflix_dates_parse).
Defined.

Lemma C4_witness :
  (fst (Get db_AB 9%N) = inr ErrNotFound /\
   table (snd (Get db_AB 9%N)) = table db_AB) /\
  (fst (Update db_AB 9%N sub_netflix) = inr ErrNotFound /\
   table (snd (Update db_AB 9%N sub_netflix)) = table db_AB) /\
  (fst (Delete db_AB 9%N) = inr ErrNotFound /\
   table (snd (Delete db_AB 9%N)) = table db_AB).
Proof.
  exact (C4_missing_id_not_found db_AB 9%N sub_netflix eq_refl eq_refl
           sub_netflix_dates_parse).
Defined.

Lemma C5_witness :
  fst (Update db_AB 1%N sub_other_owner) = inl tt /\
  fst (Get (snd (Update db_AB 1%N sub_other_owner)) 1%N) =
    inl (mkSubscription "Kinopoisk" 450 10%N "02-2023" "11-2023") /\
  fst (Get (snd (Update db_AB 1%N sub_other_owner)) 2%N) = fst (Get db_AB 2%N).
Proof.
  destruct (C5_update_overwrites_four_columns db_AB 1%N sub_other_owner
              (from_row row_A) eq_refl sub_other_owner_dates_parse eq_refl)
    as (ts & eo & _ & Hok & _ & Hget & Hframe).
  split; [exact Hok|]. split; [exact Hget|].
  apply Hframe. discriminate.
Defined.

Lemma C6_witness :
  GetTotalCost db_down uuid.Nil "" "2025-07" "12-2025" =
    (inr (Errorf "invalid period_start format: %w" (ParseError time.errMonthRange)),
     db_down) /\
  GetTotalCost db_down uuid.Nil "" "07-2025" "13-2025" =
    (inr (Errorf "invalid period_end format: %w"
                 (ParseError time.errMonthRange)), db_down) /\
  Create db_AB 7%N sub_bad_start =
    (inr (Errorf "invalid start_date format, expected MM-YYYY: %w"
                 (ParseError time.errMonthRange)), db_AB) /\
  Update db_AB 1%N sub_bad_end =
    (inr (Errorf "invalid end_date format, expected MM-YYYY: %w"
                 (ParseError time.errExtraText)), db_AB).
Proof.
  split; [|split; [|split]].
  - exact (proj1 (C6_invalid_dates_rejected_before_backend db_down uuid.Nil
                    7%N "" "2025-07" "12-2025" sub_netflix time.errMonthRange)
                 eq_refl).
  - exact (proj1 (proj2 (C6_invalid_dates_rejected_before_backend db_down
                           uuid.Nil 7%N "" "07-2025" "13-2025" sub_netflix
                           time.errMonthRange))
                 (ex_intro _ (time.Date 2025 7) eq_refl) eq_refl).
  - exact (proj1 (proj1 (proj2 (proj2
             (C6_invalid_dates_rejected_before_backend db_AB uuid.Nil 7%N ""
                "" "" sub_bad_start time.errMonthRange))) eq_refl)).
  - refine (proj2 (proj2 (proj2 (proj2
             (C6_invalid_dates_rejected_before_backend db_AB uuid.Nil 1%N ""
                "" "" sub_bad_end time.errExtraText)))
             (ex_intro _ (time.Date 2025 7) eq_refl) _ eq_refl)).
    discriminate.
Defined.

Lemma C7_witness :
  reachable db_three = true /\
  fst (List db_three) =
    inl [mkSubscription "Spotify" 200 11%N "06-2025" "";
         mkSubscription "Netflix" 100 10%N "01-2024" "";
         mkSubscription "Yandex" 300 12%N "03-2020" "03-2021"].
Proof.
  split; [reflexivity|].
  exact (proj1 (proj2 (proj2 (C7_list_by_start_date_desc db_three eq_refl))
                  _ _ _ eq_refl eq_refl eq_refl eq_refl)).
Defined.

Lemma C8_witness :
  kind (Errorf "invalid start_date format, expected MM-YYYY: %w"
               (ParseError time.errMonthRange)) = InvalidDateFormat /\
  kind (Errorf "failed to create subscription: %w" (PqError ConnFailure)) =
    StorageFailure /\
  kind (Errorf "invalid period_start format: %w"
               (ParseError time.errMonthRange)) = InvalidDateFormat /\
  kind (Errorf "failed to calculate total cost: %w" (PqError ConnFailure)) =
    StorageFailure /\
  kind ErrNotFound = NotFound.
Proof.
  destruct C8_errors_have_one_of_three_kinds
    as (Hall & Hcreate & _ & Htotal & Hget & _).
  split; [|split; [|split; [|split]]].
  - refine (proj1 (Hcreate db_empty 7%N sub_bad_start _ eq_refl) _).
    intros [[ts Hs] _]. discriminate Hs.
  - exact (proj2 (Hcreate db_down 7%N sub_netflix _ eq_refl)
                 sub_netflix_dates_parse).
  - refine (proj1 (Htotal db_empty uuid.Nil ""%string "2025-07"%string
                          "12-2025"%string _ eq_refl) _).
    left. now exists time.errMonthRange.
  - exact (proj2 (Htotal db_down uuid.Nil ""%string "07-2025"%string
                         "12-2025"%string _ eq_refl)
                 (ex_intro _ (time.Date 2025 7) eq_refl)
                 (ex_intro _ (time.Date 2025 12) eq_refl)).
  - destruct (Hall ErrNotFound (ret_Get db_empty 7%N _ eq_refl))
      as [[_ H] | [[(f & pe & E) _] | [(f & be & E) _]]];
      [exact H | discriminate E | discriminate E].
Defined.

(** C9, as stated, fails: Create stores a price of -5, and Update writes one
    over a stored price. *)
Lemma C9_counterexample :
  exists db1 db2,
    Create db_empty 7%N sub_negative = (inl 7%N, db1) /\
    map price (table db1) = [-5] /\
    fst (Get db1 7%N) = inl sub_negative /\
    Update db_AB 1%N sub_negative = (inl tt, db2) /\
    map price (table db2) = [-5; 200].
Proof. do 2 eexists. repeat split. Qed.

Lemma C9_witness :
  nonneg_prices (snd (Create db_AB 7%N sub_netflix)) /\
  nonneg_prices (snd (Update db_AB 1%N sub_netflix)).
Proof.
  assert (Hp : 0 <= Price sub_netflix) by (cbn; lia).
  assert (Hdb : nonneg_prices db_AB)
    by (unfold nonneg_prices, db_AB, row_A, row_B; cbn [table];
        repeat (apply Forall_cons; [cbn [price]; lia|]); apply Forall_nil).
  split.
  - exact (proj1 (proj1 (C9_price_stored_as_given db_AB 7%N sub_netflix)
                        Hp Hdb)).
  - exact (proj2 (proj1 (C9_price_stored_as_given db_AB 1%N sub_netflix)
                        Hp Hdb)).
Defined.

(** C10, as stated, fails: a single-digit month is turned down, as
    start_date and as end_date, by Create and by Update. *)
Lemma C10_counterexample :
  time.Parse "7-2025" = inr time.errBad /\
  Create db_empty 7%N sub_single_digit =
    (inr (Errorf "invalid start_date format, expected MM-YYYY: %w"
                 (ParseError time.errBad)), db_empty) /\
  Update db_AB 1%N sub_single_digit =
    (inr (Errorf "invalid start_date format, expected MM-YYYY: %w"
                 (ParseError time.errBad)), db_AB) /\
  Create db_empty 7%N (mkSubscription "Netflix" 100 10%N "07-2025" "7-2025") =
    (inr (Errorf "invalid end_date format, expected MM-YYYY: %w"
                 (ParseError time.errBad)), db_empty).
Proof. repeat split. Qed.

Lemma C10_witness :
  (exists format e,
     Create db_empty 7%N sub_single_digit =
     (inr (Errorf format (ParseError e)), db_empty)) /\
  (exists got,
     fst (Get (snd (Create db_AB 7%N sub_other_owner)) 7%N) = inl got /\
     StartDate got = "02-2023"%string /\ EndDate got = "11-2023"%string).
Proof.
  split.
  - exact (proj1 (proj1 (C10_dates_strict_and_verbatim db_empty 7%N
                           sub_single_digit) (or_introl eq_refl))).
  - exact (proj1 (proj2 (C10_dates_strict_and_verbatim db_AB 7%N
                           sub_other_owner)) 7%N _ eq_refl).
Defined.

Example parse_07_2025 : time.Parse "07-2025" = inl (time.Date 2025 7).
Proof. reflexivity. Qed.
Example parse_7_2025 : time.Parse "7-2025" = inr time.errBad.
Proof. reflexivity. Qed.
Example parse_13_2025 : time.Parse "13-2025" = inr time.errMonthRange.
Proof. reflexivity. Qed.
Example parse_extra : time.Parse "07-20255" = inr time.errExtraText.
Proof. reflexivity. Qed.
Example format_7_2025 : time.Format (time.Date 2025 7) = "07-2025"%string.
Proof. reflexivity. Qed.
Example format_y7 : time.Format (time.Date 7 12) = "12-0007"%string.
Proof. reflexivity. Qed.

End Concrete.

(** * Further properties of the code *)

(** ** The language of the layout "01-2006" *)

Section Layout.

Import time.

Lemma digitByte_digit (d : Z) :
  0 <= d <= 9 -> isDigitByte (digitByte d) = true /\ digitVal (digitByte d) = d.
Proof.
  intro H.
  assert (E : d = 0 \/ d = 1 \/ d = 2 \/ d = 3 \/ d = 4 \/ d = 5 \/ d = 6 \/
              d = 7 \/ d = 8 \/ d = 9) by lia.
  repeat (destruct E as [-> | E]; [now split|]). subst d. now split.
Qed.

Lemma digitVal_range (c : ascii) :
  isDigitByte c = true -> 0 <= digitVal c <= 9.
Proof.
  intro H. apply isDigitByte_In in H. cbv [digit_bytes In] in H.
  repeat (destruct H as [<- | H]; [cbv; split; discriminate|]).
  destruct H.
Qed.

(** Two digits spelling a month, a dash and four digits are parsed to the
    value they spell. *)
Lemma Parse_digits (m1 m2 y1 y2 y3 y4 : ascii) :
  Forall (fun c => isDigitByte c = true) [m1; m2; y1; y2; y3; y4] ->
  1 <= digitVal m1 * 10 + digitVal m2 <= 12 ->
  Parse (bytes.of_list [m1; m2; "-"%char; y1; y2; y3; y4]) =
  inl (Date (((digitVal y1 * 10 + digitVal y2) * 10 + digitVal y3) * 10
             + digitVal y4)
            (digitVal m1 * 10 + digitVal m2)).
Proof.
  intros Hd Hm.
  repeat match goal with
         | H : Forall _ (_ :: _) |- _ => inversion H; clear H; subst
         end.
  cbn [bytes.of_list]. unfold Parse. rewrite skip_nothing.
  unfold getnum, isDigit, byteAt. simpl String.get. cbn match.
  repeat match goal with
         | H : isDigitByte ?c = true |- context [isDigitByte ?c] => rewrite H
         end.
  cbn [negb bytes.drop].
  set (month := digitVal m1 * 10 + digitVal m2) in *.
  replace ((month <=? 0) || (12 <? month)) with false
    by (symmetry; apply orb_false_iff; split;
        [apply Z.leb_gt | apply Z.ltb_ge]; lia).
  rewrite skip_dash. rewrite Ascii.eqb_refl.
  replace (bytes.len (String y1 (String y2 (String y3 (String y4 "")))) <? 4)
    with false
    by (symmetry; apply Z.ltb_ge; unfold bytes.len; cbn [String.length]; lia).
  simpl String.get. cbn match. cbn [orb bytes.take bytes.drop].
  match goal with H : isDigitByte y1 = true |- _ =>
    rewrite H; cbn [negb]; rewrite (atoi_unsigned _ _ H) end.
  unfold leadingInt. cbn [leadingInt_from].
  repeat match goal with
         | H : isDigitByte ?c = true |- context [isDigitByte ?c] => rewrite H
         end.
  reflexivity.
Qed.

Lemma Parse_Format (t : Time) :
  month_year t -> Parse (Format t) = inl t.
Proof.
  intros [Hm Hy]. destruct t as [y m]. cbn [Year Month] in *.
  destruct (digitByte_digit (m / 10)) as [Hm1 Vm1];
    [Z.div_mod_to_equations; lia|].
  destruct (digitByte_digit (m mod 10)) as [Hm2 Vm2];
    [Z.div_mod_to_equations; lia|].
  destruct (digitByte_digit (y / 1000)) as [Hy1 Vy1];
    [Z.div_mod_to_equations; lia|].
  destruct (digitByte_digit (y / 100 mod 10)) as [Hy2 Vy2];
    [Z.div_mod_to_equations; lia|].
  destruct (digitByte_digit (y / 10 mod 10)) as [Hy3 Vy3];
    [Z.div_mod_to_equations; lia|].
  destruct (digitByte_digit (y mod 10)) as [Hy4 Vy4];
    [Z.div_mod_to_equations; lia|].
  assert (Em : m = digitVal (digitByte (m / 10)) * 10
                   + digitVal (digitByte (m mod 10)))
    by (rewrite Vm1, Vm2; Z.div_mod_to_equations; lia).
  assert (Ey : y = ((digitVal (digitByte (y / 1000)) * 10
                     + digitVal (digitByte (y / 100 mod 10))) * 10
                    + digitVal (digitByte (y / 10 mod 10))) * 10
                   + digitVal (digitByte (y mod 10)))
    by (rewrite Vy1, Vy2, Vy3, Vy4; Z.div_mod_to_equations; lia).
  assert (Hfmt : Format (Date y m) =
                 bytes.of_list
                   [digitByte (m / 10); digitByte (m mod 10); "-"%char;
                    digitByte (y / 1000); digitByte (y / 100 mod 10);
                    digitByte (y / 10 mod 10); digitByte (y mod 10)]).
  { unfold Format. cbn [Year Month]. rewrite !of_list_app.
    rewrite Em at 1. rewrite Ey at 1.
    rewrite appendInt_2_digits, appendInt_4_digits by assumption.
    reflexivity. }
  rewrite Hfmt, Parse_digits.
  - now rewrite <- Em, <- Ey.
  - repeat constructor; assumption.
  - rewrite <- Em. lia.
Qed.

(** X1: formatting a month of a four-digit year with "01-2006" and parsing
    the result gives the same month back. *)
Theorem X1_parse_after_format (t : Time) :
  month_year t -> Parse (Format t) = inl t.
Proof. apply Parse_Format. Qed.

(** X2: Parse with "01-2006" accepts exactly the strings made of two digits
    spelling a month from 01 to 12, a dash, and four digits, and returns the
    month and the year they spell. *)
Theorem X2_parse_accepts_exactly (s : string) (t : Time) :
  Parse s = inl t <->
  exists m1 m2 y1 y2 y3 y4,
    s = bytes.of_list [m1; m2; "-"%char; y1; y2; y3; y4] /\
    Forall (fun c => isDigitByte c = true) [m1; m2; y1; y2; y3; y4] /\
    1 <= digitVal m1 * 10 + digitVal m2 <= 12 /\
    t = Date (((digitVal y1 * 10 + digitVal y2) * 10 + digitVal y3) * 10
              + digitVal y4)
             (digitVal m1 * 10 + digitVal m2).
Proof.
  split.
  - intro H. apply Parse_inl_shape in H.
    destruct H as (m1 & m2 & y1 & y2 & y3 & y4 & Hs & Hd & Ht & Hm).
    exists m1, m2, y1, y2, y3, y4. rewrite Ht in Hm. cbn [Month] in Hm.
    now repeat split.
  - intros (m1 & m2 & y1 & y2 & y3 & y4 & -> & Hd & Hm & ->).
    now apply Parse_digits.
Qed.

Lemma Parse_month_year (s : string) (t : Time) :
  Parse s = inl t -> month_year t /\ String.length s = 7%nat.
Proof.
  intro H. apply Parse_inl_shape in H.
  destruct H as (m1 & m2 & y1 & y2 & y3 & y4 & -> & Hd & -> & Hm).
  repeat match goal with
         | H : Forall _ (_ :: _) |- _ => inversion H; clear H; subst
         end.
  repeat match goal with
         | H : isDigitByte _ = true |- _ => apply digitVal_range in H
         end.
  unfold month_year. cbn [Year Month] in *. repeat split; try lia.
Qed.

(** X3: a date Parse returns is a month from 1 to 12 of a year from 0 to
    9999, and the string it was read from is seven bytes long. *)
Theorem X3_parsed_dates_in_range (s : string) (t : Time) :
  Parse s = inl t -> month_year t /\ String.length s = 7%nat.
Proof. apply Parse_month_year. Qed.

Lemma X1_witness :
  month_year (Date 7 12) /\ Parse (Format (Date 7 12)) = inl (Date 7 12).
Proof.
  assert (H : month_year (Date 7 12)) by (unfold month_year; cbn; lia).
  split; [exact H | exact (X1_parse_after_format (Date 7 12) H)].
Defined.

Lemma X2_witness :
  exists m1 m2 y1 y2 y3 y4,
    "12-2100"%string = bytes.of_list [m1; m2; "-"%char; y1; y2; y3; y4] /\
    Forall (fun c => isDigitByte c = true) [m1; m2; y1; y2; y3; y4] /\
    1 <= digitVal m1 * 10 + digitVal m2 <= 12 /\
    Date 2100 12 =
    Date (((digitVal y1 * 10 + digitVal y2) * 10 + digitVal y3) * 10
          + digitVal y4)
         (digitVal m1 * 10 + digitVal m2).
Proof.
  exact (proj1 (X2_parse_accepts_exactly "12-2100" (Date 2100 12)) eq_refl).
Defined.

Lemma X3_witness :
  month_year (Date 2100 12) /\ String.length "12-2100" = 7%nat.
Proof.
  exact (X3_parsed_dates_in_range "12-2100" (Date 2100 12) eq_refl).
Defined.

End Layout.

(** ** GetTotalCost: filters and periods *)

Section TotalCostMore.

Import errors types sql storage.

(** X4: with a user id and no service name, GetTotalCost returns the sum of
    price over the records of that owner that overlap the period, when that
    sum is a value of Go's int.  (The backend is taken to answer.) *)
Theorem X4_total_cost_of_user (db : DB) (userID : uuid.UUID)
    (periodStart periodEnd : string) (ts te : time.Time) :
  reachable db = true ->
  time.Parse periodStart = inl ts -> time.Parse periodEnd = inl te ->
  userID <> uuid.Nil ->
  fits_int
    (sum_price
       (filter (fun r => qualifies ts te r && owned_by userID r) (table db)))
    = true ->
  fst (GetTotalCost db userID "" periodStart periodEnd) =
  inl (sum_price
         (filter (fun r => qualifies ts te r && owned_by userID r) (table db))).
Proof.
  intros Hup Hs He Hu Hfit.
  rewrite (GetTotalCost_user db userID periodStart periodEnd ts te)
    by assumption.
  now apply scanned_total_fits.
Qed.

(** X5: with a user id and a service name, GetTotalCost returns the sum of
    price over the records that overlap the period, belong to the user and
    carry the service name, when that sum is a value of Go's int: the filters
    combine by conjunction.  (The backend is taken to answer.) *)
Theorem X5_total_cost_of_user_and_service (db : DB) (userID : uuid.UUID)
    (serviceName periodStart periodEnd : string) (ts te : time.Time) :
  reachable db = true ->
  time.Parse periodStart = inl ts -> time.Parse periodEnd = inl te ->
  userID <> uuid.Nil -> serviceName <> EmptyString ->
  fits_int
    (sum_price
       (filter (fun r => qualifies ts te r && owned_by userID r
                         && of_service serviceName r) (table db))) = true ->
  fst (GetTotalCost db userID serviceName periodStart periodEnd) =
  inl (sum_price
         (filter (fun r => qualifies ts te r && owned_by userID r
                           && of_service serviceName r) (table db))).
Proof.
  intros Hup Hs He Hu Hn Hfit.
  rewrite (GetTotalCost_user_service db userID serviceName periodStart
             periodEnd ts te) by assumption.
  now apply scanned_total_fits.
Qed.

(** X6: with a service name and no user id, GetTotalCost fails on every
    table, the empty one included: the statement it sends names [$4] with
    three arguments bound, and the error comes back wrapped as "failed to
    calculate total cost".  (The backend is taken to be reachable.) *)
Theorem X6_total_cost_of_service_alone_fails (db : DB)
    (serviceName periodStart periodEnd : string) (ts te : time.Time) :
  reachable db = true ->
  time.Parse periodStart = inl ts -> time.Parse periodEnd = inl te ->
  serviceName <> EmptyString ->
  fst (GetTotalCost db uuid.Nil serviceName periodStart periodEnd) =
  inr (Errorf "failed to calculate total cost: %w" (PqError BadParameters)) /\
  table (snd (GetTotalCost db uuid.Nil serviceName periodStart periodEnd)) =
  table db.
Proof.
  intros Hup Hs He Hn.
  now rewrite (GetTotalCost_service_only db serviceName periodStart periodEnd
                 ts te Hup Hs He Hn).
Qed.

(** The test GetTotalCost applies when no service name is given. *)
Lemma GetTotalCost_no_service (db : DB) (userID : uuid.UUID)
    (periodStart periodEnd : string) (ts te : time.Time) :
  reachable db = true ->
  time.Parse periodStart = inl ts -> time.Parse periodEnd = inl te ->
  fst (GetTotalCost db userID "" periodStart periodEnd) =
  scanned_total
    (sum_price
       (filter (fun r => qualifies ts te r &&
                         (uuid.eqb userID uuid.Nil || owned_by userID r))
               (table db))).
Proof.
  intros Hup Hs He. destruct (uuid.eqb userID uuid.Nil) eqn:E.
  - apply N.eqb_eq in E. subst userID.
    rewrite (GetTotalCost_unfiltered db periodStart periodEnd ts te)
      by assumption.
    cbn [fst]. do 2 f_equal. apply filter_ext. intro r. cbn [orb].
    now rewrite andb_true_r.
  - apply N.eqb_neq in E.
    rewrite (GetTotalCost_user db userID periodStart periodEnd ts te)
      by assumption.
    reflexivity.
Qed.

Lemma scanned_total_inl (sum total : Z) :
  scanned_total sum = inl total -> total = sum /\ fits_int sum = true.
Proof.
  unfold scanned_total. destruct (fits_int sum); [|discriminate].
  intro H. injection H as <-. now split.
Qed.

Lemma fits_int_between (a b : Z) :
  0 <= a <= b -> fits_int b = true -> fits_int a = true.
Proof.
  unfold fits_int. intros Hab Hb.
  apply andb_true_iff in Hb as [_ Hb]. apply Z.leb_le in Hb.
  apply andb_true_iff. split; apply Z.leb_le; lia.
Qed.

Lemma sum_price_filter_le (p q : Row -> bool) (t : list Row) :
  Forall (fun r => 0 <= price r) t ->
  (forall r, p r = true -> q r = true) ->
  0 <= sum_price (filter p t) <= sum_price (filter q t).
Proof.
  intros Hpos Hpq. unfold sum_price.
  induction Hpos as [|r t Hr Ht IH]; cbn [filter map fold_right]; [lia|].
  specialize (Hpq r). destruct (p r), (q r);
    cbn [map fold_right]; try lia;
    discriminate (Hpq eq_refl).
Qed.

Lemma qualifies_widen (s1 e1 s2 e2 : time.Time) (r : Row) :
  period_within s1 e1 s2 e2 ->
  qualifies s1 e1 r = true -> qualifies s2 e2 r = true.
Proof.
  intros [Hs He]. unfold qualifies. intro H.
  apply andb_true_iff in H as [H1 H2]. apply andb_true_iff. split.
  - now apply (time_leb_trans _ e1).
  - destruct (end_date r) as [e|]; [|reflexivity].
    now apply (time_leb_trans _ s1).
Qed.

(** X7: on a table without negative prices, when GetTotalCost without a
    service filter (for all users or for one) returns a total for a period,
    it returns a total for every period contained in that one too, and that
    total is not negative and not larger.  (The backend is taken to
    answer.) *)
Theorem X7_total_cost_grows_with_period (db : DB) (userID : uuid.UUID)
    (ps1 pe1 ps2 pe2 : string) (s1 e1 s2 e2 : time.Time) (t2 : Z) :
  reachable db = true ->
  nonneg_prices db ->
  time.Parse ps1 = inl s1 -> time.Parse pe1 = inl e1 ->
  time.Parse ps2 = inl s2 -> time.Parse pe2 = inl e2 ->
  period_within s1 e1 s2 e2 ->
  fst (GetTotalCost db userID "" ps2 pe2) = inl t2 ->
  exists t1,
    fst (GetTotalCost db userID "" ps1 pe1) = inl t1 /\
    0 <= t1 <= t2.
Proof.
  intros Hup Hpos H1 H2 H3 H4 Hin Hwide.
  rewrite (GetTotalCost_no_service db userID ps2 pe2 s2 e2) in Hwide
    by assumption.
  apply scanned_total_inl in Hwide as [-> Hfit].
  rewrite (GetTotalCost_no_service db userID ps1 pe1 s1 e1) by assumption.
  match goal with
  | |- exists t1, scanned_total ?a = _ /\ _ <= _ <= ?b =>
      assert (Hle : 0 <= a <= b)
  end.
  { apply sum_price_filter_le; [exact Hpos|].
    intros r H. apply andb_true_iff in H as [Hq Hu].
    apply andb_true_iff. split; [|exact Hu].
    now apply (qualifies_widen s1 e1). }
  eexists. split; [|exact Hle].
  apply scanned_total_fits. now apply (fits_int_between _ _ Hle).
Qed.

Lemma X4_witness :
  fst (GetTotalCost db_three 11%N "" "01-2020" "12-2100") = inl 200.
Proof.
  refine (X4_total_cost_of_user db_three 11%N "01-2020" "12-2100"
            (time.Date 2020 1) (time.Date 2100 12) eq_refl eq_refl eq_refl _
            eq_refl).
  discriminate.
Defined.

Lemma X5_witness :
  fst (GetTotalCost db_AB 10%N "Spotify" "01-2025" "12-2025") = inl 200 /\
  fst (GetTotalCost db_AB 10%N "Netflix" "01-2025" "12-2025") = inl 0.
Proof.
  split.
  - refine (X5_total_cost_of_user_and_service db_AB 10%N "Spotify" "01-2025"
              "12-2025" (time.Date 2025 1) (time.Date 2025 12)
              eq_refl eq_refl eq_refl _ _ eq_refl); discriminate.
  - refine (X5_total_cost_of_user_and_service db_AB 10%N "Netflix" "01-2025"
              "12-2025" (time.Date 2025 1) (time.Date 2025 12)
              eq_refl eq_refl eq_refl _ _ eq_refl); discriminate.
Defined.

Lemma X6_witness :
  fst (GetTotalCost db_empty uuid.Nil "Netflix" "01-2024" "12-2024") =
  inr (Errorf "failed to calculate total cost: %w" (PqError BadParameters)).
Proof.
  refine (proj1 (X6_total_cost_of_service_alone_fails db_empty "Netflix"
                   "01-2024" "12-2024" (time.Date 2024 1) (time.Date 2024 12)
                   eq_refl eq_refl eq_refl _)).
  discriminate.
Defined.

Lemma db_AB_nonneg : nonneg_prices db_AB.
Proof.
  unfold nonneg_prices, db_AB, row_A, row_B; cbn [table].
  repeat (apply Forall_cons; [cbn [price]; lia|]); apply Forall_nil.
Defined.

Lemma X7_witness :
  exists t1,
    fst (GetTotalCost db_AB uuid.Nil "" "03-2024" "03-2024") = inl t1 /\
    0 <= t1 <= 300.
Proof.
  refine (X7_total_cost_grows_with_period db_AB uuid.Nil "03-2024" "03-2024"
            "01-2024" "12-2024" (time.Date 2024 3) (time.Date 2024 3)
            (time.Date 2024 1) (time.Date 2024 12) 300
            eq_refl db_AB_nonneg eq_refl eq_refl eq_refl eq_refl _ eq_refl).
  split; reflexivity.
Defined.

End TotalCostMore.

(** ** How the operations of the store compose *)

Section Compose.

Import errors types sql storage.

Lemma count_rows_zero_fresh (id : uuid.UUID) (t : list Row) :
  count_rows (has_id id) t = 0 -> existsb (has_id id) t = false.
Proof.
  unfold count_rows. induction t as [|r t IH]; [reflexivity|].
  cbn [filter existsb]. destruct (has_id id r); cbn [List.length orb].
  - lia.
  - exact IH.
Qed.

(** X8: Get, List and GetTotalCost leave the table as it is, whatever they
    are given and whatever they return. *)
Theorem X8_reads_do_not_write (db : DB) (id userID : uuid.UUID)
    (serviceName periodStart periodEnd : string) :
  table (snd (Get db id)) = table db /\
  table (snd (List db)) = table db /\
  table (snd (GetTotalCost db userID serviceName periodStart periodEnd)) =
  table db.
Proof.
  split; [|split].
  - unfold Get, QueryRow_by_id.
    destruct (negb (reachable (issue db)));
      [|destruct (find (has_id id) (table (issue db)))]; reflexivity.
  - unfold List, Query_all. destruct (negb (reachable (issue db))); reflexivity.
  - unfold GetTotalCost.
    destruct (time.Parse periodStart) as [ts|e]; [|reflexivity].
    destruct (time.Parse periodEnd) as [te|e]; [|reflexivity].
    destruct (total_cost_query userID serviceName ts te) as [query args].
    unfold QueryRow_sum_price, Scan_int.
    destruct (negb (reachable (issue db)));
      [|destruct (negb (bind_ok query args));
        [|destruct (select_where args query (table (issue db))) as [rs|];
          [destruct (fits_int (COALESCE (SUM (map price rs)) 0))|]]];
      reflexivity.
Qed.

(** X9: when Create, Update or Delete returns an error, of any kind, the
    table is as it was before the call. *)
Theorem X9_failed_writes_change_nothing (db : DB) (id : uuid.UUID)
    (sub : Subscription) (e : error) :
  (fst (Create db id sub) = inr e -> table (snd (Create db id sub)) = table db) /\
  (fst (Update db id sub) = inr e -> table (snd (Update db id sub)) = table db) /\
  (fst (Delete db id) = inr e -> table (snd (Delete db id)) = table db).
Proof.
  split; [|split].
  - unfold Create. destruct (parse_dates sub) as [[ts eo]|e']; [|reflexivity].
    unfold Exec_insert. cbn [sub_id].
    destruct (negb (reachable (issue db)));
      [|destruct (existsb (has_id id) (table (issue db)))];
      cbn [fst snd]; try reflexivity.
    intro H. discriminate H.
  - unfold Update. destruct (parse_dates sub) as [[ts eo]|e']; [|reflexivity].
    unfold Exec_update.
    destruct eo; destruct (negb (reachable (issue db)));
      cbn [RowsAffected fst snd]; try reflexivity;
      destruct (count_rows (has_id id) (table (issue db)) =? 0) eqn:E;
      cbn [fst snd with_table table issue] in *; try discriminate;
      intros _; apply map_untouched, count_rows_zero_fresh;
      now apply Z.eqb_eq.
  - unfold Delete, Exec_delete.
    destruct (negb (reachable (issue db)));
      cbn [RowsAffected fst snd]; try reflexivity.
    destruct (count_rows (has_id id) (table (issue db)) =? 0) eqn:E;
      cbn [fst snd with_table table issue] in *; try discriminate.
    intros _. apply filter_untouched, count_rows_zero_fresh.
    now apply Z.eqb_eq.
Qed.

Lemma Delete_reachable (db : DB) (id : uuid.UUID) :
  reachable db = true ->
  Delete db id =
  (if count_rows (has_id id) (table db) =? 0 then inr ErrNotFound else inl tt,
   with_table (issue db) (filter (fun r => negb (has_id id r)) (table db))).
Proof.
  intro Hup. unfold Delete, Exec_delete. cbn [issue reachable table].
  rewrite Hup. cbn [negb RowsAffected].
  destruct (count_rows (has_id id) (table db) =? 0); reflexivity.
Qed.

Lemma existsb_filter_out (id : uuid.UUID) (t : list Row) :
  existsb (has_id id) (filter (fun r => negb (has_id id r)) t) = false.
Proof.
  induction t as [|r t IH]; [reflexivity|].
  cbn [filter]. destruct (has_id id r) eqn:E; cbn [negb existsb]; [exact IH|].
  now rewrite E.
Qed.

Lemma find_filter_other (id id' : uuid.UUID) (t : list Row) :
  id' <> id ->
  find (has_id id') (filter (fun r => negb (has_id id r)) t) =
  find (has_id id') t.
Proof.
  intro Hne. induction t as [|r t IH]; [reflexivity|].
  cbn [filter find]. destruct (has_id id r) eqn:E; cbn [negb find].
  - destruct (has_id id' r) eqn:E'; [|exact IH].
    exfalso. apply Hne. apply N.eqb_eq in E, E'. congruence.
  - destruct (has_id id' r); [reflexivity | exact IH].
Qed.

(** X10: Delete of an id some row carries succeeds and removes the rows with
    that id and no other: afterwards Get and a second Delete of the id return
    ErrNotFound, and Get of any other id reads what it read before.  (The
    backend is taken to answer.) *)
Theorem X10_delete_removes_the_record (db : DB) (id : uuid.UUID)
    (old : Subscription) :
  reachable db = true ->
  fst (Get db id) = inl old ->
  fst (Delete db id) = inl tt /\
  table (snd (Delete db id)) = filter (fun r => negb (has_id id r)) (table db) /\
  fst (Get (snd (Delete db id)) id) = inr ErrNotFound /\
  fst (Delete (snd (Delete db id)) id) = inr ErrNotFound /\
  forall id', id' <> id ->
    fst (Get (snd (Delete db id)) id') = fst (Get db id').
Proof.
  intros Hup Hold.
  rewrite Get_reachable in Hold by exact Hup. cbn [fst] in Hold.
  destruct (find (has_id id) (table db)) as [r|] eqn:Hfind; [|discriminate].
  rewrite Delete_reachable by exact Hup. cbn [fst snd].
  pose proof (count_rows_found _ _ _ Hfind) as Hpos.
  assert (Hup' : forall t, reachable (with_table (issue db) t) = true)
    by (intro; exact Hup).
  repeat split.
  - destruct (count_rows (has_id id) (table db) =? 0) eqn:E; [|reflexivity].
    apply Z.eqb_eq in E. lia.
  - rewrite Get_reachable by apply Hup'. cbn [fst with_table table].
    now rewrite find_fresh by apply existsb_filter_out.
  - rewrite Delete_reachable by apply Hup'. cbn [fst with_table table].
    now rewrite count_rows_fresh by apply existsb_filter_out.
  - intros id' Hne. rewrite !Get_reachable by (apply Hup' || exact Hup).
    cbn [fst with_table table]. now rewrite find_filter_other.
Qed.

(** X11: Create followed by Delete of the id it returned gives back the
    table Create started from.  (The backend is taken to answer, the
    generated id to be unused, and the dates to parse.) *)
Theorem X11_create_then_delete (db : DB) (newUUID : uuid.UUID)
    (sub : Subscription) :
  reachable db = true ->
  fresh newUUID db ->
  dates_parse sub ->
  exists db1 db2,
    Create db newUUID sub = (inl newUUID, db1) /\
    Delete db1 newUUID = (inl tt, db2) /\
    table db2 = table db.
Proof.
  intros Hup Hf Hd.
  destruct (dates_parse_parsed _ Hd) as (ts & eo & Hp).
  rewrite (Create_succeeds _ _ _ ts eo) by assumption.
  do 2 eexists. split; [reflexivity|].
  rewrite Delete_reachable by exact Hup. cbn [with_table table issue].
  assert (Hr : has_id newUUID
                 (mkRow newUUID (UserID sub) (ServiceName sub) (Price sub)
                        ts eo) = true) by apply N.eqb_refl.
  assert (Hcount : (count_rows (has_id newUUID)
                      (table db ++
                       [mkRow newUUID (UserID sub) (ServiceName sub)
                              (Price sub) ts eo]) =? 0) = false).
  { apply Z.eqb_neq. unfold count_rows. rewrite filter_app, length_app.
    cbn [filter]. rewrite Hr. cbn [List.length]. lia. }
  rewrite Hcount. split; [reflexivity|].
  cbn [table]. rewrite filter_app, filter_untouched by exact Hf.
  cbn [filter]. rewrite Hr. cbn [negb]. apply app_nil_r.
Qed.

Lemma List_reachable (db : DB) :
  reachable db = true ->
  fst (List db) = inl (map from_row (order_by_start_date_desc (table db))).
Proof.
  intro Hup. unfold List, Query_all. cbn [issue reachable table]. rewrite Hup.
  cbn [negb fst]. now rewrite scan_rows_app.
Qed.

(** X12: after a successful Create, List returns what it returned before
    and the created record, once, in some order.  (The backend is taken to
    answer, the generated id to be unused, and the dates to parse.) *)
Theorem X12_create_adds_one_to_list (db : DB) (newUUID : uuid.UUID)
    (sub : Subscription) :
  reachable db = true ->
  fresh newUUID db ->
  dates_parse sub ->
  exists db1 before after,
    Create db newUUID sub = (inl newUUID, db1) /\
    fst (List db) = inl before /\
    fst (List db1) = inl after /\
    Permutation (sub :: before) after.
Proof.
  intros Hup Hf Hd.
  destruct (dates_parse_parsed _ Hd) as (ts & eo & Hp).
  rewrite (Create_succeeds _ _ _ ts eo) by assumption.
  do 3 eexists. split; [reflexivity|].
  rewrite !List_reachable by exact Hup. cbn [with_table table issue].
  split; [reflexivity|]. split; [reflexivity|].
  rewrite <- (from_row_parsed newUUID sub ts eo Hp) at 1.
  rewrite <- map_cons. apply Permutation_map.
  rewrite !order_by_perm. rewrite Permutation_app_comm. reflexivity.
Qed.

Lemma sum_price_app (a b : list Row) :
  sum_price (a ++ b) = sum_price a + sum_price b.
Proof.
  unfold sum_price. induction a as [|r a IH]; cbn [app map fold_right]; lia.
Qed.

(** X13: after a successful Create, the unfiltered total of a period is
    the total before plus the new record's price when the new record overlaps
    the period, and the total before otherwise -- provided the total before
    was returned and the new total is a value of Go's int.  (The backend is
    taken to answer, the generated id to be unused.) *)
Theorem X13_create_adds_price_to_total (db : DB) (newUUID : uuid.UUID)
    (sub : Subscription) (start : time.Time) (eo : option time.Time)
    (periodStart periodEnd : string) (ts te : time.Time) (before : Z) :
  reachable db = true ->
  fresh newUUID db ->
  parsed_dates sub start eo ->
  time.Parse periodStart = inl ts -> time.Parse periodEnd = inl te ->
  fst (GetTotalCost db uuid.Nil "" periodStart periodEnd) = inl before ->
  fits_int (before +
            if time.leb start te &&
               match eo with Some e => time.leb ts e | None => true end
            then Price sub else 0) = true ->
  exists db1,
    Create db newUUID sub = (inl newUUID, db1) /\
    fst (GetTotalCost db1 uuid.Nil "" periodStart periodEnd) =
    inl (before +
         if time.leb start te &&
            match eo with Some e => time.leb ts e | None => true end
         then Price sub else 0).
Proof.
  intros Hup Hf Hp Hs He Hbefore Hfit.
  rewrite (GetTotalCost_unfiltered db periodStart periodEnd ts te)
    in Hbefore by assumption.
  cbn [fst] in Hbefore. apply scanned_total_inl in Hbefore as [-> _].
  rewrite (Create_succeeds _ _ _ start eo) by assumption.
  eexists. split; [reflexivity|].
  rewrite (GetTotalCost_unfiltered _ periodStart periodEnd ts te)
    by assumption.
  cbn [fst with_table table issue].
  assert (E : sum_price
                (filter (qualifies ts te)
                   (table db ++
                    [mkRow newUUID (UserID sub) (ServiceName sub) (Price sub)
                           start eo])) =
              sum_price (filter (qualifies ts te) (table db)) +
              (if time.leb start te &&
                  match eo with Some e => time.leb ts e | None => true end
               then Price sub else 0)).
  { rewrite filter_app, sum_price_app. f_equal.
    cbn [filter]. unfold qualifies at 1. cbn [start_date end_date].
    destruct (time.leb start te &&
              match eo with Some e => time.leb ts e | None => true end);
      unfold sum_price; cbn [map fold_right price]; lia. }
  rewrite E. now apply scanned_total_fits.
Qed.

(** X14: of two Updates of one id in a row the second decides: the table is
    the one the second Update alone would leave.  (The backend is taken to
    answer and the dates of both inputs to parse.) *)
Theorem X14_last_update_wins (db : DB) (id : uuid.UUID)
    (first second : Subscription) :
  reachable db = true ->
  dates_parse first -> dates_parse second ->
  table (snd (Update (snd (Update db id first)) id second)) =
  table (snd (Update db id second)).
Proof.
  intros Hup H1 H2.
  destruct (dates_parse_parsed _ H1) as (ts1 & eo1 & Hp1).
  destruct (dates_parse_parsed _ H2) as (ts2 & eo2 & Hp2).
  rewrite (Update_reachable db id first ts1 eo1) by assumption.
  rewrite (Update_reachable db id second ts2 eo2) by assumption.
  cbn [snd]. rewrite (Update_reachable _ id second ts2 eo2) by assumption.
  cbn [snd with_table table issue]. rewrite map_map. apply map_ext.
  intro r. destruct (has_id id r) eqn:E.
  - replace (has_id id (set_columns (ServiceName first) (Price first) ts1 eo1 r))
      with true by (symmetry; exact E).
    reflexivity.
  - now rewrite E.
Qed.

End Compose.

(** ** Invariants of the table *)

Section Invariants.

Import errors types sql storage.

Lemma existsb_has_id_In (id : uuid.UUID) (t : list Row) :
  existsb (has_id id) t = false -> ~ In id (map sub_id t).
Proof.
  induction t as [|r t IH]; cbn [existsb map In]; [tauto|].
  intro H. apply orb_false_iff in H as [Hr Ht]. intros [E | Hin].
  - apply N.eqb_neq in Hr. congruence.
  - now apply IH.
Qed.

(** Dropping rows keeps the remaining ids distinct. *)
Lemma ids_distinct_after_filter (keep : Row -> bool) (t : list Row) :
  NoDup (map sub_id t) -> NoDup (map sub_id (filter keep t)).
Proof.
  intro Hnd. induction t as [|r t IH]; cbn [map filter] in *; [exact Hnd|].
  inversion Hnd as [|? ? Hr Ht]; subst.
  destruct (keep r); [|exact (IH Ht)].
  cbn [map]. constructor; [|exact (IH Ht)].
  intro Hin. apply Hr. apply in_map_iff in Hin as (y & Ey & Hy).
  apply filter_In in Hy as [Hy _]. apply in_map_iff. now exists y.
Qed.

Lemma parsed_dates_ok (sub : Subscription) (ts : time.Time)
    (eo : option time.Time) (id user : uuid.UUID) (n : string) (p : Z) :
  parsed_dates sub ts eo -> row_dates_ok (mkRow id user n p ts eo).
Proof.
  intros [Hs He]. split; cbn [start_date end_date].
  - now apply Parse_month_year in Hs.
  - destruct eo as [te|]; [|exact I]. now apply Parse_month_year in He.
Qed.

(** X15: Create, Update and Delete keep the ids of the table distinct:
    Create adds an id only when no row carries it (the primary key), Update
    rewrites no id, Delete only removes rows. *)
Theorem X15_ids_stay_unique (db : DB) (id : uuid.UUID) (sub : Subscription) :
  unique_ids db ->
  unique_ids (snd (Create db id sub)) /\
  unique_ids (snd (Update db id sub)) /\
  unique_ids (snd (Delete db id)).
Proof.
  unfold unique_ids. intro H. split; [|split].
  - unfold Create. destruct (parse_dates sub) as [[ts eo]|e]; [|exact H].
    unfold Exec_insert. cbn [sub_id].
    destruct (negb (reachable (issue db))); [exact H|].
    destruct (existsb (has_id id) (table (issue db))) eqn:E; [exact H|].
    cbn [snd with_table table issue] in *. rewrite map_app. cbn [map sub_id].
    apply NoDup_app; [exact H | repeat constructor; cbn; tauto |].
    intros x Hx [<- | []]. now apply existsb_has_id_In in E.
  - unfold Update. destruct (parse_dates sub) as [[ts eo]|e]; [|exact H].
    unfold Exec_update.
    assert (Hids : forall g,
               map sub_id
                 (map (fun r => if has_id id r
                                then set_columns (ServiceName sub) (Price sub)
                                                 ts g r
                                else r) (table db)) = map sub_id (table db)).
    { intro g. rewrite map_map. apply map_ext. intro r.
      now destruct (has_id id r). }
    destruct eo; destruct (negb (reachable (issue db)));
      cbn [RowsAffected snd]; try exact H;
      destruct (count_rows (has_id id) (table (issue db)) =? 0);
      cbn [snd with_table table issue]; now rewrite Hids.
  - unfold Delete, Exec_delete.
    destruct (negb (reachable (issue db))); cbn [RowsAffected snd];
      [exact H|].
    destruct (count_rows (has_id id) (table (issue db)) =? 0);
      cbn [snd with_table table issue]; now apply ids_distinct_after_filter.
Qed.

(** X16: Create, Update and Delete keep every date of the table a month
    from 1 to 12 of a year from 0 to 9999: the only dates they write are
    dates Parse returned. *)
Theorem X16_dates_stay_in_range (db : DB) (id : uuid.UUID)
    (sub : Subscription) :
  dates_ok db ->
  dates_ok (snd (Create db id sub)) /\
  dates_ok (snd (Update db id sub)) /\
  dates_ok (snd (Delete db id)).
Proof.
  unfold dates_ok. intro H. split; [|split].
  - unfold Create. destruct (parse_dates sub) as [[ts eo]|e] eqn:Hd;
      [|exact H].
    apply parse_dates_parsed in Hd.
    unfold Exec_insert. cbn [sub_id].
    destruct (negb (reachable (issue db))); [exact H|].
    destruct (existsb (has_id id) (table (issue db))); [exact H|].
    cbn [snd with_table table issue]. apply Forall_app. split; [exact H|].
    constructor; [|constructor]. now apply (parsed_dates_ok sub).
  - unfold Update. destruct (parse_dates sub) as [[ts eo]|e] eqn:Hd;
      [|exact H].
    apply parse_dates_parsed in Hd.
    assert (Hmap : Forall row_dates_ok
                     (map (fun r => if has_id id r
                                    then set_columns (ServiceName sub)
                                                     (Price sub) ts eo r
                                    else r) (table db))).
    { apply Forall_map. eapply Forall_impl; [|exact H].
      intros r Hr. cbn beta. destruct (has_id id r); [|exact Hr].
      now apply (parsed_dates_ok sub). }
    unfold Exec_update.
    destruct eo; destruct (negb (reachable (issue db)));
      cbn [RowsAffected snd]; try exact H;
      destruct (count_rows (has_id id) (table (issue db)) =? 0);
      cbn [snd with_table table issue]; exact Hmap.
  - unfold Delete, Exec_delete.
    destruct (negb (reachable (issue db))); cbn [RowsAffected snd];
      [exact H|].
    assert (Hfil : Forall row_dates_ok
                     (filter (fun r => negb (has_id id r)) (table db))).
    { apply Forall_forall. intros r Hr. apply filter_In in Hr as [Hr _].
      revert r Hr. now apply Forall_forall. }
    destruct (count_rows (has_id id) (table (issue db)) =? 0);
      cbn [snd with_table table issue]; exact Hfil.
Qed.

Lemma from_row_dates_parse (r : Row) :
  row_dates_ok r -> dates_parse (from_row r).
Proof.
  intros [Hs He]. unfold dates_parse, from_row.
  destruct (end_date r) as [e|]; cbn [StartDate EndDate].
  - split; [exists (start_date r) | right; exists e]; now apply Parse_Format.
  - split; [exists (start_date r); now apply Parse_Format | now left].
Qed.

(** X17: on a table whose dates are months of four-digit years, every
    record Get or List returns has a start_date that parses and an end_date
    that is empty or parses: it is an input Create and Update accept. *)
Theorem X17_records_read_can_be_written (db : DB) (id : uuid.UUID) :
  dates_ok db ->
  (forall sub, fst (Get db id) = inl sub -> dates_parse sub) /\
  (forall subs, fst (List db) = inl subs -> Forall dates_parse subs).
Proof.
  unfold dates_ok. intro H. split.
  - intros sub. unfold Get, QueryRow_by_id.
    destruct (negb (reachable (issue db))); [discriminate|].
    destruct (find (has_id id) (table (issue db))) as [r|] eqn:Hfind;
      [|discriminate].
    cbn [fst]. intro E. injection E as <-.
    apply from_row_dates_parse. apply find_some in Hfind as [Hin _].
    cbn [issue table] in Hin. revert r Hin. now apply Forall_forall.
  - intros subs. unfold List, Query_all.
    destruct (negb (reachable (issue db))); [discriminate|].
    cbn [fst]. intro E. injection E as <-. rewrite scan_rows_app.
    cbn [app issue table]. apply Forall_map.
    eapply Permutation_Forall; [symmetry; apply order_by_perm|].
    eapply Forall_impl; [|exact H]. apply from_row_dates_parse.
Qed.

Lemma unique_row (id : uuid.UUID) (t : list Row) (r r' : Row) :
  NoDup (map sub_id t) ->
  find (has_id id) t = Some r -> In r' t -> has_id id r' = true -> r' = r.
Proof.
  induction t as [|x t IH]; [discriminate|].
  cbn [map find In]. intros Hnd Hfind Hin Hr'.
  inversion Hnd as [|? ? Hx Ht]; subst.
  destruct (has_id id x) eqn:Ex.
  - injection Hfind as <-. destruct Hin as [-> | Hin]; [reflexivity|].
    exfalso. apply Hx. apply N.eqb_eq in Ex, Hr'.
    apply in_map_iff. exists r'. split; [congruence | exact Hin].
  - destruct Hin as [-> | Hin]; [congruence|]. now apply IH.
Qed.

(** X18: writing back with Update what Get has just returned changes
    nothing: Update succeeds and the table is as it was.  (The backend is
    taken to answer; the ids of the table are distinct and its dates months of
    four-digit years.) *)
Theorem X18_update_with_what_get_returned (db : DB) (id : uuid.UUID)
    (sub : Subscription) :
  reachable db = true ->
  unique_ids db ->
  dates_ok db ->
  fst (Get db id) = inl sub ->
  fst (Update db id sub) = inl tt /\
  table (snd (Update db id sub)) = table db.
Proof.
  intros Hup Hu Hd Hget.
  rewrite Get_reachable in Hget by exact Hup. cbn [fst] in Hget.
  destruct (find (has_id id) (table db)) as [r|] eqn:Hfind; [|discriminate].
  injection Hget as <-.
  assert (Hr : row_dates_ok r).
  { apply find_some in Hfind as [Hin _]. revert r Hin.
    now apply Forall_forall. }
  assert (Hp : parsed_dates (from_row r) (start_date r) (end_date r)).
  { destruct Hr as [Hs He]. unfold parsed_dates, from_row.
    destruct (end_date r) as [e|]; cbn [StartDate EndDate];
      split; try reflexivity; now apply Parse_Format. }
  rewrite (Update_reachable _ _ _ _ _ Hup Hp). cbn [fst snd]. split.
  - pose proof (count_rows_found _ _ _ Hfind) as Hpos.
    destruct (count_rows (has_id id) (table db) =? 0) eqn:E; [|reflexivity].
    apply Z.eqb_eq in E. lia.
  - cbn [with_table table]. rewrite <- (map_id (table db)) at 2.
    apply map_ext_in. intros r' Hin. destruct (has_id id r') eqn:E;
      [|reflexivity].
    rewrite (unique_row id (table db) r r' Hu Hfind Hin E).
    unfold set_columns, from_row. destruct r as [i u n p sd ed].
    cbn [sub_id user_id service_name price start_date end_date].
    destruct ed; reflexivity.
Qed.

End Invariants.

(** ** The handlers *)

Section Handlers.

Import errors types sql.

Variable uuid_Parse : string -> option uuid.UUID.

(** X19: the GetTotalCost handler answers a request without period_start
    with 400 "period_start are required", whatever else the request holds,
    and a request whose user_id does not parse with 400 "Invalid user_id
    format"; in both cases the store is not called. *)
Theorem X19_total_cost_request_is_checked_first (db : DB)
    (userIDStr serviceName periodStart periodEnd : string) :
  handlers.GetTotalCost uuid_Parse db userIDStr serviceName "" periodEnd =
    (handlers.JSON handlers.StatusBadRequest
       (ErrorResponse "period_start are required"), db) /\
  (periodStart <> EmptyString -> userIDStr <> EmptyString ->
   uuid_Parse userIDStr = None ->
   handlers.GetTotalCost uuid_Parse db userIDStr serviceName periodStart
                         periodEnd =
     (handlers.JSON handlers.StatusBadRequest
        (ErrorResponse "Invalid user_id format"), db)).
Proof.
  split.
  - reflexivity.
  - intros Hs Hu Hp. unfold handlers.GetTotalCost.
    now rewrite (is_empty_false _ Hs), (is_empty_false _ Hu), Hp.
Qed.

(** X20: a request to the GetTotalCost handler without user_id, service_name
    and period_end is answered with 200 and the sum of price over the records
    that start no later than December 2100 and whose end is absent or no
    earlier than period_start, when that sum is a value of Go's int.  (The
    backend is taken to answer.) *)
Theorem X20_total_cost_default_period_end (db : DB) (periodStart : string)
    (ts : time.Time) :
  reachable db = true ->
  time.Parse periodStart = inl ts ->
  fits_int (sum_price (filter (qualifies ts (time.Date 2100 12)) (table db)))
    = true ->
  fst (handlers.GetTotalCost uuid_Parse db "" "" periodStart "") =
  handlers.JSON handlers.StatusOK
    (TotalCostResponse
       (sum_price (filter (qualifies ts (time.Date 2100 12)) (table db)))).
Proof.
  intros Hup Hs Hfit. unfold handlers.GetTotalCost. cbn [bytes.is_empty negb].
  assert (Hne : bytes.is_empty periodStart = false).
  { destruct periodStart; [discriminate Hs | reflexivity]. }
  rewrite Hne.
  rewrite (GetTotalCost_unfiltered db periodStart "12-2100" ts
             (time.Date 2100 12) Hup Hs eq_refl).
  now rewrite (scanned_total_fits _ Hfit).
Qed.

(** X21: a request to the GetTotalCost handler with a service_name and no
    user_id is answered with 500 "Failed to calculate total cost", whatever
    the table holds.  (The backend is taken to be reachable and the period to
    parse.) *)
Theorem X21_total_cost_by_service_alone_is_500 (db : DB)
    (serviceName periodStart periodEnd : string) (ts te : time.Time) :
  reachable db = true ->
  serviceName <> EmptyString ->
  time.Parse periodStart = inl ts ->
  time.Parse periodEnd = inl te ->
  fst (handlers.GetTotalCost uuid_Parse db "" serviceName periodStart
                             periodEnd) =
  handlers.JSON handlers.StatusInternalServerError
    (ErrorResponse "Failed to calculate total cost").
Proof.
  intros Hup Hn Hs He. unfold handlers.GetTotalCost.
  assert (H1 : bytes.is_empty periodStart = false)
    by (destruct periodStart; [discriminate Hs | reflexivity]).
  assert (H2 : bytes.is_empty periodEnd = false)
    by (destruct periodEnd; [discriminate He | reflexivity]).
  rewrite H1, H2. cbn [bytes.is_empty negb].
  now rewrite (GetTotalCost_service_only db serviceName periodStart periodEnd
                 ts te Hup Hs He Hn).
Qed.

(** X22: for an id no row carries, GetSub, UpdateSub and DeleteSub answer
    404 "Subscription not found".  (The backend is taken to answer and the
    dates of the body to parse.) *)
Theorem X22_missing_id_is_404 (db : DB) (id : uuid.UUID)
    (sub : Subscription) :
  reachable db = true ->
  fresh id db ->
  dates_parse sub ->
  fst (handlers.GetSub db (Some id)) =
    handlers.JSON handlers.StatusNotFound
      (ErrorResponse "Subscription not found") /\
  fst (handlers_crud.UpdateSub db (Some id) (Some sub)) =
    handlers_crud.JSON handlers.StatusNotFound
      (handlers_crud.ErrorResponse "Subscription not found") /\
  fst (handlers_crud.DeleteSub db (Some id)) =
    handlers_crud.JSON handlers.StatusNotFound
      (handlers_crud.ErrorResponse "Subscription not found").
Proof.
  intros Hup Hf Hd.
  destruct (dates_parse_parsed _ Hd) as (ts & eo & Hp).
  unfold handlers.GetSub, handlers_crud.UpdateSub, handlers_crud.DeleteSub.
  rewrite (Get_reachable _ _ Hup), (Update_reachable _ _ _ ts eo Hup Hp),
    (Delete_reachable _ _ Hup).
  rewrite (find_fresh _ _ Hf), (count_rows_fresh _ _ Hf).
  repeat split.
Qed.

(** X23: once ShouldBindJSON has bound the body to a subscription (the
    binding tags ask for a start_date that is present, not for one that
    parses), a start_date that does not parse, or a non-empty end_date that
    does not, makes CreateSub answer 500 "Failed to create subscription" and
    UpdateSub 500 "Failed to update subscription", and the store's backend is
    not called. *)
Theorem X23_unparseable_date_is_500 (db : DB) (newUUID id : uuid.UUID)
    (sub : Subscription) :
  ~ dates_parse sub ->
  handlers.CreateSub db newUUID (Some sub) =
    (handlers.JSON handlers.StatusInternalServerError
       (ErrorResponse "Failed to create subscription"), db) /\
  handlers_crud.UpdateSub db (Some id) (Some sub) =
    (handlers_crud.JSON handlers.StatusInternalServerError
       (handlers_crud.ErrorResponse "Failed to update subscription"), db).
Proof.
  intro Hbad.
  destruct (storage.parse_dates sub) as [[ts eo]|e] eqn:Hd.
  - exfalso. apply Hbad. apply parse_dates_parsed in Hd as [Hs He].
    split; [now exists ts|]. destruct eo as [te|]; [right; now exists te | now left].
  - pose proof (parse_dates_error _ _ Hd) as Ho.
    apply opaque_wrapper_Is in Ho.
    unfold handlers.CreateSub, handlers_crud.UpdateSub, storage.Create,
      storage.Update.
    rewrite Hd. cbn match. now rewrite Ho.
Qed.

(** X24: when the backend cannot be reached, every handler that gets as far
    as the store answers 500, and the table is as it was. *)
Theorem X24_unreachable_backend_is_500 (db : DB) (newUUID id : uuid.UUID)
    (sub : Subscription) (periodStart : string) (ts : time.Time) :
  reachable db = false ->
  dates_parse sub ->
  time.Parse periodStart = inl ts ->
  (handlers.code (fst (handlers.GetSub db (Some id))) = 500 /\
   handlers.code (fst (handlers.CreateSub db newUUID (Some sub))) = 500 /\
   handlers.code
     (fst (handlers.GetTotalCost uuid_Parse db "" "" periodStart "")) = 500 /\
   handlers_crud.code (fst (handlers_crud.UpdateSub db (Some id) (Some sub)))
     = 500 /\
   handlers_crud.code (fst (handlers_crud.DeleteSub db (Some id))) = 500 /\
   handlers_crud.code (fst (handlers_crud.ListSubs db)) = 500) /\
  (table (snd (handlers.CreateSub db newUUID (Some sub))) = table db /\
   table (snd (handlers_crud.UpdateSub db (Some id) (Some sub))) = table db /\
   table (snd (handlers_crud.DeleteSub db (Some id))) = table db).
Proof.
  intros Hdown Hd Hs.
  destruct (dates_parse_parsed _ Hd) as (ts' & eo & Hp).
  assert (Hne : bytes.is_empty periodStart = false)
    by (destruct periodStart; [discriminate Hs | reflexivity]).
  unfold handlers.GetSub, handlers.CreateSub, handlers.GetTotalCost,
    handlers_crud.UpdateSub, handlers_crud.DeleteSub, handlers_crud.ListSubs,
    storage.Get, storage.Create, storage.Update, storage.Delete,
    storage.List, storage.GetTotalCost, storage.total_cost_query,
    QueryRow_by_id, Exec_insert, Exec_update, Exec_delete, Query_all,
    QueryRow_sum_price.
  rewrite (parse_dates_inl _ _ _ Hp), Hne, Hs.
  cbn [bytes.is_empty negb issue reachable table uuid.eqb uuid.Nil N.eqb].
  change (time.Parse "12-2100") with (@inl time.Time time.ParseError
                                        (time.Date 2100 12)).
  cbn iota. cbn [issue reachable]. rewrite Hdown.
  destruct eo; repeat split.
Qed.

End Handlers.

Section HandlersCompose.

Import errors types sql.

(** X25: once ShouldBindJSON has bound the body to a subscription whose
    dates parse, CreateSub answers 201 with the generated id, and GetSub of
    that id then answers 200 with the subscription that was bound.  (The
    backend is taken to answer and the generated id to be unused.) *)
Theorem X25_created_then_fetched (db : DB) (newUUID : uuid.UUID)
    (sub : Subscription) :
  reachable db = true ->
  fresh newUUID db ->
  dates_parse sub ->
  exists db1,
    handlers.CreateSub db newUUID (Some sub) =
      (handlers.JSON handlers.StatusCreated (CreatedResponse newUUID), db1) /\
    fst (handlers.GetSub db1 (Some newUUID)) =
      handlers.JSON handlers.StatusOK (SubscriptionBody sub).
Proof.
  intros Hup Hf Hd.
  destruct (dates_parse_parsed _ Hd) as (ts & eo & Hp).
  pose proof (Create_succeeds _ _ _ ts eo Hup Hf Hp) as Hc.
  pose proof (Create_then_Get _ _ _ _ _ Hc) as (_ & _ & _ & Hg).
  unfold handlers.CreateSub, handlers.GetSub. rewrite Hc.
  eexists. split; [reflexivity|].
  destruct (storage.Get _ newUUID) as [[got|e] db2]; cbn [fst] in *;
    [now injection Hg as -> | discriminate Hg].
Qed.

(** X26: ListSubs answers 200 with one record per row of the table and a
    count equal to the number of rows.  (The backend is taken to answer.) *)
Theorem X26_list_counts_the_rows (db : DB) :
  reachable db = true ->
  exists subs,
    fst (handlers_crud.ListSubs db) =
      handlers_crud.JSON handlers.StatusOK
        (handlers_crud.ListSubscriptionsResponse subs
           (Z.of_nat (List.length (table db)))) /\
    List.length subs = List.length (table db).
Proof.
  intro Hup. pose proof (List_reachable db Hup) as H.
  unfold handlers_crud.ListSubs.
  destruct (storage.List db) as [[subs|e] db']; cbn [fst] in *;
    [|discriminate H].
  injection H as ->.
  assert (Hlen : List.length
                   (map storage.from_row
                      (order_by_start_date_desc (table db))) =
                 List.length (table db)).
  { rewrite length_map. apply Permutation_length, order_by_perm. }
  eexists. split; [|exact Hlen]. now rewrite Hlen.
Qed.

(** X27: DeleteSub of an id some row carries answers 200 with that id, and
    GetSub of the id then answers 404.  (The backend is taken to answer.) *)
Theorem X27_deleted_then_not_found (db : DB) (id : uuid.UUID)
    (old : Subscription) :
  reachable db = true ->
  fst (storage.Get db id) = inl old ->
  fst (handlers_crud.DeleteSub db (Some id)) =
    handlers_crud.JSON handlers.StatusOK (handlers_crud.IDResponse id) /\
  fst (handlers.GetSub (snd (handlers_crud.DeleteSub db (Some id))) (Some id)) =
    handlers.JSON handlers.StatusNotFound
      (ErrorResponse "Subscription not found").
Proof.
  intros Hup Hold.
  rewrite Get_reachable in Hold by exact Hup. cbn [fst] in Hold.
  destruct (find (has_id id) (table db)) as [r|] eqn:Hfind; [|discriminate].
  pose proof (count_rows_found _ _ _ Hfind) as Hpos.
  unfold handlers_crud.DeleteSub, handlers.GetSub.
  rewrite (Delete_reachable _ _ Hup).
  destruct (count_rows (has_id id) (table db) =? 0) eqn:E;
    [apply Z.eqb_eq in E; lia|].
  cbn [fst snd]. split; [reflexivity|].
  rewrite Get_reachable by exact Hup. cbn [with_table table].
  now rewrite find_fresh by apply existsb_filter_out.
Qed.

End HandlersCompose.

(** ** The further properties on concrete stores *)

Section ConcreteMore.

Import errors types sql storage.

Lemma db_AB_unique : unique_ids db_AB.
Proof.
  unfold unique_ids. cbn. repeat constructor; cbn; intuition discriminate.
Defined.

Lemma db_AB_dates_ok : dates_ok db_AB.
Proof.
  unfold dates_ok, db_AB, row_A, row_B, row_dates_ok, month_year.
  cbn [table]. repeat constructor; cbn; try lia.
Defined.

Lemma X9_witness :
  table (snd (Create db_AB 1%N sub_netflix)) = table db_AB /\
  table (snd (Update db_AB 9%N sub_netflix)) = table db_AB /\
  table (snd (Delete db_down_AB 1%N)) = table db_down_AB.
Proof.
  split; [|split].
  - exact (proj1 (X9_failed_writes_change_nothing db_AB 1%N sub_netflix
                    (Errorf "failed to create subscription: %w"
                            (PqError UniqueViolation))) eq_refl).
  - exact (proj1 (proj2 (X9_failed_writes_change_nothing db_AB 9%N
                           sub_netflix ErrNotFound)) eq_refl).
  - exact (proj2 (proj2 (X9_failed_writes_change_nothing db_down_AB 1%N
                           sub_netflix
                           (Errorf "failed to delete subscription: %w"
                                   (PqError ConnFailure)))) eq_refl).
Defined.

Lemma X10_witness :
  fst (Delete db_AB 1%N) = inl tt /\
  table (snd (Delete db_AB 1%N)) = [row_B] /\
  fst (Get (snd (Delete db_AB 1%N)) 1%N) = inr ErrNotFound /\
  fst (Delete (snd (Delete db_AB 1%N)) 1%N) = inr ErrNotFound /\
  fst (Get (snd (Delete db_AB 1%N)) 2%N) = fst (Get db_AB 2%N).
Proof.
  destruct (X10_delete_removes_the_record db_AB 1%N (from_row row_A)
              eq_refl eq_refl) as (H1 & H2 & H3 & H4 & H5).
  split; [exact H1|]. split; [exact H2|]. split; [exact H3|].
  split; [exact H4|]. apply H5. discriminate.
Defined.

Lemma X11_witness :
  exists db1 db2,
    Create db_AB 7%N sub_netflix = (inl 7%N, db1) /\
    Delete db1 7%N = (inl tt, db2) /\
    table db2 = table db_AB.
Proof.
  exact (X11_create_then_delete db_AB 7%N sub_netflix eq_refl eq_refl
           sub_netflix_dates_parse).
Defined.

Lemma X12_witness :
  exists db1 before after,
    Create db_AB 7%N sub_netflix = (inl 7%N, db1) /\
    fst (List db_AB) = inl before /\
    fst (List db1) = inl after /\
    Permutation (sub_netflix :: before) after.
Proof.
  exact (X12_create_adds_one_to_list db_AB 7%N sub_netflix eq_refl eq_refl
           sub_netflix_dates_parse).
Defined.

Lemma X13_witness :
  exists db1,
    Create db_AB 7%N sub_netflix = (inl 7%N, db1) /\
    fst (GetTotalCost db1 uuid.Nil "" "01-2025" "12-2025") = inl (200 + 100).
Proof.
  exact (X13_create_adds_price_to_total db_AB 7%N sub_netflix
           (time.Date 2025 7) None "01-2025" "12-2025"
           (time.Date 2025 1) (time.Date 2025 12) 200
           eq_refl eq_refl (conj eq_refl eq_refl) eq_refl eq_refl eq_refl
           eq_refl).
Defined.

Lemma X14_witness :
  table (snd (Update (snd (Update db_AB 1%N sub_netflix)) 1%N sub_other_owner))
  = table (snd (Update db_AB 1%N sub_other_owner)).
Proof.
  exact (X14_last_update_wins db_AB 1%N sub_netflix sub_other_owner eq_refl
           sub_netflix_dates_parse sub_other_owner_dates_parse).
Defined.

Lemma X15_witness :
  unique_ids (snd (Create db_AB 7%N sub_netflix)) /\
  unique_ids (snd (Update db_AB 1%N sub_netflix)) /\
  unique_ids (snd (Delete db_AB 1%N)).
Proof.
  destruct (X15_ids_stay_unique db_AB 7%N sub_netflix db_AB_unique)
    as (H1 & _ & _).
  destruct (X15_ids_stay_unique db_AB 1%N sub_netflix db_AB_unique)
    as (_ & H2 & H3).
  split; [exact H1|]. split; [exact H2 | exact H3].
Defined.

Lemma X16_witness :
  dates_ok (snd (Create db_AB 7%N sub_netflix)) /\
  dates_ok (snd (Update db_AB 1%N sub_netflix)) /\
  dates_ok (snd (Delete db_AB 1%N)).
Proof.
  destruct (X16_dates_stay_in_range db_AB 7%N sub_netflix db_AB_dates_ok)
    as (H1 & _ & _).
  destruct (X16_dates_stay_in_range db_AB 1%N sub_netflix db_AB_dates_ok)
    as (_ & H2 & H3).
  split; [exact H1|]. split; [exact H2 | exact H3].
Defined.

Lemma X17_witness :
  dates_parse (from_row row_A) /\
  Forall dates_parse [from_row row_B; from_row row_A].
Proof.
  destruct (X17_records_read_can_be_written db_AB 1%N db_AB_dates_ok)
    as (H1 & H2).
  split; [exact (H1 _ eq_refl) | exact (H2 _ eq_refl)].
Defined.

Lemma X18_witness :
  fst (Update db_AB 1%N (from_row row_A)) = inl tt /\
  table (snd (Update db_AB 1%N (from_row row_A))) = table db_AB.
Proof.
  exact (X18_update_with_what_get_returned db_AB 1%N (from_row row_A)
           eq_refl db_AB_unique db_AB_dates_ok eq_refl).
Defined.

Lemma X19_witness :
  handlers.GetTotalCost (fun _ => None) db_down "not-a-uuid" "" "07-2025" "" =
  (handlers.JSON handlers.StatusBadRequest
     (ErrorResponse "Invalid user_id format"), db_down).
Proof.
  refine (proj2 (X19_total_cost_request_is_checked_first (fun _ => None)
                   db_down "not-a-uuid" "" "07-2025" "") _ _ eq_refl);
    discriminate.
Defined.

Lemma X20_witness :
  fst (handlers.GetTotalCost (fun _ => None) db_AB "" "" "01-2025" "") =
  handlers.JSON handlers.StatusOK (TotalCostResponse 200).
Proof.
  exact (X20_total_cost_default_period_end (fun _ => None) db_AB "01-2025"
           (time.Date 2025 1) eq_refl eq_refl eq_refl).
Defined.

Lemma X21_witness :
  fst (handlers.GetTotalCost (fun _ => None) db_AB "" "Netflix" "01-2024"
                             "12-2024") =
  handlers.JSON handlers.StatusInternalServerError
    (ErrorResponse "Failed to calculate total cost").
Proof.
  refine (X21_total_cost_by_service_alone_is_500 (fun _ => None) db_AB
            "Netflix" "01-2024" "12-2024" (time.Date 2024 1)
            (time.Date 2024 12) eq_refl _ eq_refl eq_refl).
  discriminate.
Defined.

Lemma X22_witness :
  fst (handlers.GetSub db_AB (Some 9%N)) =
    handlers.JSON handlers.StatusNotFound
      (ErrorResponse "Subscription not found") /\
  fst (handlers_crud.UpdateSub db_AB (Some 9%N) (Some sub_netflix)) =
    handlers_crud.JSON handlers.StatusNotFound
      (handlers_crud.ErrorResponse "Subscription not found") /\
  fst (handlers_crud.DeleteSub db_AB (Some 9%N)) =
    handlers_crud.JSON handlers.StatusNotFound
      (handlers_crud.ErrorResponse "Subscription not found").
Proof.
  exact (X22_missing_id_is_404 db_AB 9%N sub_netflix eq_refl eq_refl
           sub_netflix_dates_parse).
Defined.

Lemma sub_yandex_single_digit_unparseable :
  ~ dates_parse sub_yandex_single_digit.
Proof. intros [[ts Hs] _]. discriminate Hs. Defined.

Lemma X23_witness :
  handlers.CreateSub db_AB 7%N (Some sub_yandex_single_digit) =
    (handlers.JSON handlers.StatusInternalServerError
       (ErrorResponse "Failed to create subscription"), db_AB) /\
  handlers_crud.UpdateSub db_AB (Some 1%N) (Some sub_yandex_single_digit) =
    (handlers_crud.JSON handlers.StatusInternalServerError
       (handlers_crud.ErrorResponse "Failed to update subscription"), db_AB).
Proof.
  exact (X23_unparseable_date_is_500 db_AB 7%N 1%N sub_yandex_single_digit
           sub_yandex_single_digit_unparseable).
Defined.

Lemma X24_witness :
  handlers_crud.code (fst (handlers_crud.ListSubs db_down_AB)) = 500 /\
  table (snd (handlers_crud.DeleteSub db_down_AB (Some 1%N))) =
  table db_down_AB.
Proof.
  destruct (X24_unreachable_backend_is_500 (fun _ => None) db_down_AB 7%N 1%N
              sub_netflix "07-2025" (time.Date 2025 7) eq_refl
              sub_netflix_dates_parse eq_refl)
    as ((_ & _ & _ & _ & _ & H1) & (_ & _ & H2)).
  split; [exact H1 | exact H2].
Defined.

Lemma sub_yandex_dates_parse : dates_parse sub_yandex.
Proof. split; [now exists (time.Date 2025 7) | now left]. Defined.

Lemma X25_witness :
  exists db1,
    handlers.CreateSub db_AB 7%N (Some sub_yandex) =
      (handlers.JSON handlers.StatusCreated (CreatedResponse 7%N), db1) /\
    fst (handlers.GetSub db1 (Some 7%N)) =
      handlers.JSON handlers.StatusOK (SubscriptionBody sub_yandex).
Proof.
  exact (X25_created_then_fetched db_AB 7%N sub_yandex eq_refl eq_refl
           sub_yandex_dates_parse).
Defined.

Lemma X26_witness :
  exists subs,
    fst (handlers_crud.ListSubs db_three) =
      handlers_crud.JSON handlers.StatusOK
        (handlers_crud.ListSubscriptionsResponse subs 3) /\
    List.length subs = 3%nat.
Proof. exact (X26_list_counts_the_rows db_three eq_refl). Defined.

Lemma X27_witness :
  fst (handlers_crud.DeleteSub db_AB (Some 2%N)) =
    handlers_crud.JSON handlers.StatusOK (handlers_crud.IDResponse 2%N) /\
  fst (handlers.GetSub (snd (handlers_crud.DeleteSub db_AB (Some 2%N)))
                       (Some 2%N)) =
    handlers.JSON handlers.StatusNotFound
      (ErrorResponse "Subscription not found").
Proof.
  exact (X27_deleted_then_not_found db_AB 2%N (from_row row_B)
           eq_refl eq_refl).
Defined.

End ConcreteMore.
